(** * The PyVista visualisation tutorial of DiffDRR

    A shallow embedding of [notebooks/tutorials/visualization.ipynb]: the
    notebook's code cells, statement by statement, as transformers of a
    kernel state (namespace, files on disk, log of the library calls made).

    Floating-point values are read as the rationals they denote ([Qc]).
    The arithmetic of torch tensors, rounding included, belongs to the
    environment; the two divisions of Python floats, [1020.0 / 2] and
    [1020.0 / 3], are exact.  Angles are stored in units of [torch.pi]. *)

From Stdlib Require Import ZArith QArith Qcanon Qround List Bool Lia.
From stdpp Require Import base option list strings gmap pretty.

Local Open Scope Z_scope.
Local Open Scope Qc_scope.
Local Open Scope string_scope.
Local Open Scope list_scope.

(** ** Data *)

Inductive Device := Cpu | Cuda.

(** [volume.shape] and the voxel intensities in storage order. *)
Record Volume := { shape : list Z; voxels : list Qc }.

Definition Point : Type := Qc * Qc * Qc.
Definition Mat3 : Type := Point * Point * Point.

Record Mesh := { points : list Point; cells : list (list nat) }.

Definition Image : Type := list (list Qc).

(** Modelled from the spec: the pose object of [diffdrr.pose] (not under
    src/), "a rigid transform expressed via a rotation parameterization and
    a translation vector; consumed to position a virtual X-ray
    source/detector". *)
Record Pose := { rotation : Mat3; translation : Point }.

(** Modelled from the spec: the renderer handle of [diffdrr.drr.DRR] (not
    under src/), "configured with volume, spacing, source-to-detector
    distance, image height, and pixel spacing", "bound to a compute
    device". *)
Record Renderer := {
  drr_volume : Volume;
  drr_spacing : list Qc;
  drr_sdr : Qc;
  drr_height : Z;
  drr_delx : Qc;
  drr_device : Device
}.

(** Keyword arguments of [plotter.add_mesh]. *)
Record MeshOpts := {
  show_edges : bool;
  line_width : option Qc;
  color : option string;
  texture_of : option Image
}.

Inductive Actor :=
| AMesh (m : Mesh) (o : MeshOpts)
| AAxes
| ABoundingBox.

Record IFrame := { src : string; height : Z; width : Z }.

(** The objects the notebook binds to names. *)
#[warnings="-register-all"]
Inductive PyVal :=
| VDevice (d : Device)
| VVolume (v : Volume)
| VArray (xs : list Qc)
| VFloat (x : Qc)
| VTensor (rows : list (list Qc)) (d : Device)
| VRenderer (r : Renderer)
| VMesh (m : Mesh)
| VTexture (t : Image)
| VPose (p : Pose)
| VPlotter (scene : list Actor)
| VIFrame (f : IFrame)
| VTuple (items : list PyVal)
| VLibrary (qualified_name : string).

(** Library calls, as they are logged. *)
Inductive Event :=
| EvDevice (d : Device)
| EvLoadCT
| EvDRR
| EvTo (d : Device)
| EvDrrToMesh (method : string)
| EvConvert
| EvImgToMesh
| EvRender
| EvPlotter
| EvAddMesh (what : string)
| EvAddAxes
| EvAddBoundingBox
| EvExportHtml (file : string)
| EvIFrame (file : string).

Inductive Exn :=
| NameError (x : string)
| TypeError (x : string)
| ValueError (msg : string)
| RuntimeError (msg : string)
| UnsupportedBackend (method : string)
| InvalidPose
| LibraryError (call : Event)
| ImportError (qualified_name : string).

(** ** External collaborators

    Everything the notebook delegates: the import system, torch, PyVista,
    and the numerical kernels of DiffDRR.  [None] and [false] stand for the
    call raising.

    [torch_mul], [torch_div] and [torch_sub] are torch's arithmetic on the
    elements of a tensor, in the precision of the tensor and with its
    rounding: an integer element times a floating one, a floating element
    divided by a Python integer, a floating element minus a Python float. *)
Record Env := {
  importable : string -> bool;
  torch_mul : Z -> Qc -> Qc;
  torch_div : Qc -> Z -> Qc;
  torch_sub : Qc -> Qc -> Qc;
  cuda_is_available : bool;
  example_ct : option (Volume * list Qc);
  drr_accepts : Volume -> list Qc -> Qc -> Z -> Qc -> bool;
  device_usable : Device -> bool;
  isosurface : string -> Volume -> list Qc -> Qc -> option Mesh;
  rotation_matrix : string -> string -> list Qc -> option Mat3;
  detector_frame : Renderer -> Point * list Point;
  detector_cells : Renderer -> list (list nat);
  project : Renderer -> Pose -> option Image;
  frustum : Point -> list Point -> Mesh;
  segment : Point -> list Point -> Mesh;
  can_add : list Actor -> Actor -> bool;
  to_html : list Actor -> option string
}.

(** ** Evaluating an expression: the calls it makes, then a value or an
    exception. *)
Record Eval (A : Type) := MkEval { calls : list Event; value : Exn + A }.
Arguments MkEval {A} _ _.
Arguments calls {A} _.
Arguments value {A} _.

Definition ret {A} (a : A) : Eval A := MkEval [] (inr a).
Definition raise {A} (e : Exn) : Eval A := MkEval [] (inl e).
Definition call (ev : Event) : Eval unit := MkEval [ev] (inr tt).

Definition bind {A B} (m : Eval A) (k : A -> Eval B) : Eval B :=
  match value m with
  | inl e => MkEval (calls m) (inl e)
  | inr a => MkEval (calls m ++ calls (k a)) (value (k a))
  end.

Notation "x <- m ;; k" := (bind m (fun x => k))
  (at level 100, m at next level, right associativity).
Notation "m ;;; k" := (bind m (fun _ => k))
  (at level 100, right associativity).

Definition expect {A} (o : option A) (e : Exn) : Eval A :=
  match o with Some a => ret a | None => raise e end.

Definition require (b : bool) (e : Exn) : Eval unit :=
  if b then ret tt else raise e.

(** ** Kernel state *)

Record World := {
  ns : gmap string PyVal;      (* the kernel namespace *)
  fs : gmap string string;     (* files of the working directory *)
  trace : list Event;          (* library calls so far, oldest first *)
  out : list PyVal             (* displayed cell outputs *)
}.

Definition set_ns (f : gmap string PyVal -> gmap string PyVal) (w : World) : World :=
  {| ns := f (ns w); fs := fs w; trace := trace w; out := out w |}.
Definition set_fs (f : gmap string string -> gmap string string) (w : World) : World :=
  {| ns := ns w; fs := f (fs w); trace := trace w; out := out w |}.
Definition log (evs : list Event) (w : World) : World :=
  {| ns := ns w; fs := fs w; trace := trace w ++ evs; out := out w |}.
Definition display (v : PyVal) (w : World) : World :=
  {| ns := ns w; fs := fs w; trace := trace w; out := out w ++ [v] |}.

Inductive Outcome :=
| Done (w : World)
| Raised (e : Exn) (w : World).

Definition world_of (o : Outcome) : World :=
  match o with Done w => w | Raised _ w => w end.

(** ** Statements *)

Definition Expr : Type := gmap string PyVal -> Eval PyVal.

Inductive Stmt :=
| Assign (targets : list string) (rhs : Expr)
    (* t1, ..., tn = rhs *)
| Mutate (obj : string) (method : gmap string PyVal -> PyVal -> Eval PyVal)
    (* obj.method(...), updating the object bound to obj in place *)
| WriteFile (file : string) (rhs : gmap string PyVal -> Eval string)
    (* a call whose effect is to write file *)
| Show (rhs : Expr).
    (* the closing expression of a cell, displayed *)

Definition targets_of (s : Stmt) : list string :=
  match s with
  | Assign ts _ => ts
  | Mutate obj _ => [obj]
  | WriteFile _ _ | Show _ => []
  end.

(** Iterating a value, as tuple unpacking does. *)
Definition iterate (v : PyVal) : option (list PyVal) :=
  match v with
  | VTuple items => Some items
  | VArray xs => Some (map VFloat xs)
  | _ => None
  end.

(** The messages of the [ValueError] of an unpacking that finds too few
    or too many values. *)
Definition not_enough_values (expected got : nat) : string :=
  "not enough values to unpack (expected " ++ pretty expected ++ ", got "
  ++ pretty got ++ ")".

Definition too_many_values (expected : nat) : string :=
  "too many values to unpack (expected " ++ pretty expected ++ ")".

Definition unpack (targets : list string) (v : PyVal) : Exn + list PyVal :=
  match targets with
  | [_] => inr [v]
  | _ =>
      match iterate v with
      | None => inl (TypeError "cannot unpack non-iterable object")
      | Some vs =>
          if Nat.eqb (length vs) (length targets) then inr vs
          else if Nat.ltb (length vs) (length targets)
          then inl (ValueError (not_enough_values (length targets) (length vs)))
          else inl (ValueError (too_many_values (length targets)))
      end
  end.

Fixpoint bind_names (xs : list string) (vs : list PyVal)
    (m : gmap string PyVal) : gmap string PyVal :=
  match xs, vs with
  | x :: xs, v :: vs => bind_names xs vs (<[x:=v]> m)
  | _, _ => m
  end.

Definition exec_stmt (s : Stmt) (w : World) : Outcome :=
  match s with
  | Assign targets rhs =>
      let r := rhs (ns w) in
      let w1 := log (calls r) w in
      match value r with
      | inl e => Raised e w1
      | inr v =>
          match unpack targets v with
          | inl e => Raised e w1
          | inr vs => Done (set_ns (bind_names targets vs) w1)
          end
      end
  | Mutate obj method =>
      match ns w !! obj with
      | None => Raised (NameError obj) w
      | Some self =>
          let r := method (ns w) self in
          let w1 := log (calls r) w in
          match value r with
          | inl e => Raised e w1
          | inr v => Done (set_ns (insert obj v) w1)
          end
      end
  | WriteFile file rhs =>
      let r := rhs (ns w) in
      let w1 := log (calls r) w in
      match value r with
      | inl e => Raised e w1
      | inr text => Done (set_fs (insert file text) w1)
      end
  | Show rhs =>
      let r := rhs (ns w) in
      let w1 := log (calls r) w in
      match value r with
      | inl e => Raised e w1
      | inr v => Done (display v w1)
      end
  end.

(** Statements run in order; the first exception ends the run. *)
Fixpoint exec (l : list Stmt) (w : World) : Outcome :=
  match l with
  | [] => Done w
  | s :: l =>
      match exec_stmt s w with
      | Done w1 => exec l w1
      | Raised e w1 => Raised e w1
      end
  end.

(** ** Names and conversions *)

Definition name (x : string) (m : gmap string PyVal) : Eval PyVal :=
  expect (m !! x) (NameError x).

Definition as_device (x : string) (v : PyVal) : Eval Device :=
  match v with VDevice d => ret d | _ => raise (TypeError x) end.
Definition as_volume (x : string) (v : PyVal) : Eval Volume :=
  match v with VVolume a => ret a | _ => raise (TypeError x) end.
Definition as_array (x : string) (v : PyVal) : Eval (list Qc) :=
  match v with VArray a => ret a | _ => raise (TypeError x) end.
Definition as_float (x : string) (v : PyVal) : Eval Qc :=
  match v with VFloat a => ret a | _ => raise (TypeError x) end.
Definition as_tensor (x : string) (v : PyVal) : Eval (list (list Qc)) :=
  match v with VTensor a _ => ret a | _ => raise (TypeError x) end.
Definition as_renderer (x : string) (v : PyVal) : Eval Renderer :=
  match v with VRenderer a => ret a | _ => raise (TypeError x) end.
Definition as_mesh (x : string) (v : PyVal) : Eval Mesh :=
  match v with VMesh a => ret a | _ => raise (TypeError x) end.
Definition as_texture (x : string) (v : PyVal) : Eval Image :=
  match v with VTexture a => ret a | _ => raise (TypeError x) end.
Definition as_pose (x : string) (v : PyVal) : Eval Pose :=
  match v with VPose a => ret a | _ => raise (TypeError x) end.
Definition as_plotter (x : string) (v : PyVal) : Eval (list Actor) :=
  match v with VPlotter a => ret a | _ => raise (TypeError x) end.

Definition read {A} (cast : string -> PyVal -> Eval A) (x : string)
    (m : gmap string PyVal) : Eval A :=
  v <- name x m ;; cast x v.

Definition Z2Qc (z : Z) : Qc := Q2Qc (inject_Z z).

(** The statement [s], reading the names [xs] first: the names of library
    objects are looked up before anything else of the statement runs. *)
Definition reading (xs : list string) (s : Stmt) : Stmt :=
  match s with
  | Assign ts rhs => Assign ts (fun m => foldr (fun x k => name x m ;;; k) (rhs m) xs)
  | Mutate obj method =>
      Mutate obj (fun m self => foldr (fun x k => name x m ;;; k) (method m self) xs)
  | WriteFile file rhs =>
      WriteFile file (fun m => foldr (fun x k => name x m ;;; k) (rhs m) xs)
  | Show rhs => Show (fun m => foldr (fun x k => name x m ;;; k) (rhs m) xs)
  end.

(** ** Rigid transforms *)

Definition dot (a b : Point) : Qc :=
  let '(a1, a2, a3) := a in
  let '(b1, b2, b3) := b in
  a1 * b1 + a2 * b2 + a3 * b3.

Definition mat_vec (R : Mat3) (x : Point) : Point :=
  let '(r1, r2, r3) := R in (dot r1 x, dot r2 x, dot r3 x).

Definition vec_add (a b : Point) : Point :=
  let '(a1, a2, a3) := a in
  let '(b1, b2, b3) := b in
  (a1 + b1, a2 + b2, a3 + b3).

Definition apply_pose (p : Pose) (x : Point) : Point :=
  vec_add (mat_vec (rotation p) x) (translation p).

Section Notebook.

Context (E : Env).

(** ** The library functions the notebook calls *)

(** ["cuda" if torch.cuda.is_available() else "cpu"] *)
Definition chosen_device : Device :=
  if cuda_is_available E then Cuda else Cpu.

(** [torch.device("cuda" if torch.cuda.is_available() else "cpu")] *)
Definition select_device : Eval Device :=
  call (EvDevice chosen_device) ;;; ret chosen_device.

(** Modelled from the spec: [diffdrr.data.load_example_ct] (not under
    src/): the volume loader "returns (volume grid, spacing vector)". *)
Definition load_example_ct : Eval PyVal :=
  call EvLoadCT ;;;
  ct <- expect (example_ct E) (LibraryError EvLoadCT) ;;
  ret (VTuple [VVolume (fst ct); VArray (snd ct)]).

(** Modelled from the spec: the constructor [diffdrr.drr.DRR] (not under
    src/): it "accepts volume, spacing, source-to-detector distance, output
    image height, pixel spacing; returns a callable renderer bound to a
    compute device".  A new module lives on the processor. *)
Definition DRR (volume : Volume) (spacing : list Qc) (sdr : Qc) (h : Z)
    (delx : Qc) : Eval Renderer :=
  call EvDRR ;;;
  require (drr_accepts E volume spacing sdr h delx) (LibraryError EvDRR) ;;;
  ret {| drr_volume := volume; drr_spacing := spacing; drr_sdr := sdr;
         drr_height := h; drr_delx := delx; drr_device := Cpu |}.

(** [module.to(device)]: moves the module and returns it. *)
Definition to (r : Renderer) (d : Device) : Eval Renderer :=
  call (EvTo d) ;;;
  require (device_usable E d) (LibraryError (EvTo d)) ;;;
  ret {| drr_volume := drr_volume r; drr_spacing := drr_spacing r;
         drr_sdr := drr_sdr r; drr_height := drr_height r;
         drr_delx := drr_delx r; drr_device := d |}.

(** The backends the notebook's text lists as supported. *)
Definition supported_backends : list string :=
  ["marching_cubes"; "surface_nets"].

Definition supported (method : string) : bool :=
  bool_decide (method ∈ supported_backends).

(** Modelled from the spec: [diffdrr.visualization.drr_to_mesh] (not under
    src/): the mesh-from-volume function "accepts renderer handle, backend
    name, intensity threshold, verbosity flag; returns a mesh"; the backend
    name "must be one of the renderer's supported backends", and an
    unsupported one "must fail immediately".  The extraction itself, and the
    missing optional dependency of the faster backend, are the plotting
    toolkit's. *)
Definition drr_to_mesh (drr : Renderer) (method : string) (threshold : Qc)
    (verbose : bool) : Eval PyVal :=
  call (EvDrrToMesh method) ;;;
  require (supported method) (UnsupportedBackend method) ;;;
  m <- expect (isosurface E method (drr_volume drr) (drr_spacing drr) threshold)
         (LibraryError (EvDrrToMesh method)) ;;
  ret (VMesh m).

(** Modelled from the spec: [diffdrr.pose.convert] (not under src/): the
    pose converter "accepts rotation values, translation values, a
    parameterization name, and an axis convention; returns a pose object
    consumable by the renderer"; an "invalid pose shape" is a failure.  One
    pose is one row of three rotation values and one row of three
    translation values. *)
Definition convert (rotations translations : list (list Qc))
    (parameterization convention : string) : Eval PyVal :=
  call EvConvert ;;;
  match rotations, translations with
  | [angles], [[tx; ty; tz]] =>
      R <- expect (rotation_matrix E parameterization convention angles)
             InvalidPose ;;
      ret (VPose {| rotation := R; translation := (tx, ty, tz) |})
  | _, _ => raise InvalidPose
  end.

(** The detector plane of a renderer placed by a pose. *)
Definition detector_plane (drr : Renderer) (pose : Pose) : Mesh :=
  {| points := map (apply_pose pose) (snd (detector_frame E drr));
     cells := detector_cells E drr |}.

(** Modelled from the spec: [diffdrr.visualization.img_to_mesh] (not under
    src/): the image-to-mesh function "accepts renderer handle and pose;
    returns camera mesh, detector mesh, texture image, principal-ray
    geometry"; the detector plane is "textured with a rendered projection",
    and the pose is "consumed to position a virtual X-ray source/detector". *)
Definition img_to_mesh (drr : Renderer) (pose : Pose) : Eval PyVal :=
  call EvImgToMesh ;;;
  call EvRender ;;;
  img <- expect (project E drr pose) (LibraryError EvRender) ;;
  let source := apply_pose pose (fst (detector_frame E drr)) in
  let detector := detector_plane drr pose in
  ret (VTuple [VMesh (frustum E source (points detector));
               VMesh detector;
               VTexture img;
               VMesh (segment E source (points detector))]).

(** [pyvista.Plotter()] *)
Definition Plotter : Eval PyVal :=
  call EvPlotter ;;; ret (VPlotter []).

Definition add_actor (ev : Event) (self : PyVal) (a : Actor) : Eval PyVal :=
  scene <- as_plotter "plotter" self ;;
  call ev ;;;
  require (can_add E scene a) (LibraryError ev) ;;;
  ret (VPlotter (scene ++ [a])).

(** The keyword arguments of the four [add_mesh] calls. *)
Definition plain : MeshOpts :=
  {| show_edges := false; line_width := None; color := None;
     texture_of := None |}.
Definition camera_opts : MeshOpts :=
  {| show_edges := true; line_width := Some (Z2Qc 3 / Z2Qc 2); color := None;
     texture_of := None |}.
Definition ray_opts : MeshOpts :=
  {| show_edges := false; line_width := Some (Z2Qc 3); color := Some "lime";
     texture_of := None |}.
Definition textured (t : Image) : MeshOpts :=
  {| show_edges := false; line_width := None; color := None;
     texture_of := Some t |}.

(** ** torch arithmetic *)

(** The message of the [RuntimeError] of two sizes that do not broadcast. *)
Definition size_mismatch (a b : nat) : string :=
  "The size of tensor a (" ++ pretty a ++ ") must match the size of tensor b ("
  ++ pretty b ++ ") at non-singleton dimension 0".

(** Elementwise product of a one-dimensional integer tensor and a
    one-dimensional floating tensor, with broadcasting of a one-element
    operand. *)
Definition tensor_mul (a : list Z) (b : list Qc) : Eval (list Qc) :=
  if Nat.eqb (length a) (length b) then ret (zip_with (torch_mul E) a b)
  else
    match a, b with
    | [x], _ => ret (map (torch_mul E x) b)
    | _, [y] => ret (map (fun x => torch_mul E x y) a)
    | _, _ => raise (RuntimeError (size_mismatch (length a) (length b)))
    end.

Definition tensor_div (a : list Qc) (d : Z) : list Qc :=
  map (fun x => torch_div E x d) a.

(** ** The cells *)

(** [import module] *)
Definition import_module (module : string) : Stmt :=
  Assign [module] (fun _ =>
    require (importable E module) (ImportError module) ;;;
    ret (VLibrary module)).

(** [from module import x]; [from module import x, y] binds [x], then [y]. *)
Definition import_from (module x : string) : Stmt :=
  Assign [x] (fun _ =>
    let qualified := (module ++ "." ++ x)%string in
    require (importable E qualified) (ImportError qualified) ;;;
    ret (VLibrary qualified)).

(** [bx, by, bz = torch.tensor(volume.shape) * torch.tensor(spacing) / 2] *)
Definition isocenter (volume : Volume) (spacing : list Qc) : Eval (list Qc) :=
  p <- tensor_mul (shape volume) spacing ;;
  ret (tensor_div p 2).

Definition focal_len_value : Qc := Z2Qc 1020.

(** [[torch.pi, 0.0, torch.pi / 2]], in units of [torch.pi] *)
Definition script_rotations : list (list Qc) :=
  [[Z2Qc 1; Z2Qc 0; Z2Qc 1 / Z2Qc 2]].

(** [[bx - focal_len / 3, by, bz]]: [focal_len / 3] is a division of
    Python floats, the subtraction is torch's, [bx] being a tensor. *)
Definition script_translations (bx focal_len by_ bz : Qc) : list (list Qc) :=
  [[torch_sub E bx (focal_len / Z2Qc 3); by_; bz]].

(** [torch.tensor(<rows>, device=device)], the rows being an expression in
    bx, focal_len, by and bz. *)
Definition translations_tensor (rows : Qc -> Qc -> Qc -> Qc -> list (list Qc))
    : Expr := fun m =>
  bx <- read as_float "bx" m ;;
  focal_len <- read as_float "focal_len" m ;;
  by_ <- read as_float "by" m ;;
  bz <- read as_float "bz" m ;;
  device <- read as_device "device" m ;;
  ret (VTensor (rows bx focal_len by_ bz) device).

Definition cell_setup : list Stmt := [
  (* device = torch.device("cuda" if torch.cuda.is_available() else "cpu") *)
  Assign ["device"] (fun _ => d <- select_device ;; ret (VDevice d));
  (* volume, spacing = load_example_ct() *)
  Assign ["volume"; "spacing"] (fun _ => load_example_ct);
  (* bx, by, bz = torch.tensor(volume.shape) * torch.tensor(spacing) / 2 *)
  Assign ["bx"; "by"; "bz"] (fun m =>
    volume <- read as_volume "volume" m ;;
    spacing <- read as_array "spacing" m ;;
    c <- isocenter volume spacing ;;
    ret (VArray c));
  (* focal_len = 1020.0 *)
  Assign ["focal_len"] (fun _ => ret (VFloat focal_len_value));
  (* device = torch.device("cuda" if torch.cuda.is_available() else "cpu") *)
  Assign ["device"] (fun _ => d <- select_device ;; ret (VDevice d));
  (* drr = DRR(volume, spacing, sdr=focal_len / 2, height=200, delx=2.0).to(device) *)
  Assign ["drr"] (fun m =>
    volume <- read as_volume "volume" m ;;
    spacing <- read as_array "spacing" m ;;
    focal_len <- read as_float "focal_len" m ;;
    r <- DRR volume spacing (focal_len / Z2Qc 2) 200%Z (Z2Qc 2) ;;
    device <- read as_device "device" m ;;
    r <- to r device ;;
    ret (VRenderer r))
].

Definition cell_scene (method : string)
    (rows : Qc -> Qc -> Qc -> Qc -> list (list Qc)) : list Stmt := [
  (* ct = drr_to_mesh(drr, "surface_nets", threshold=1150, verbose=False) *)
  Assign ["ct"] (fun m =>
    drr <- read as_renderer "drr" m ;;
    drr_to_mesh drr method (Z2Qc 1150) false);
  (* rotations = torch.tensor([[torch.pi, 0.0, torch.pi / 2]], device=device) *)
  Assign ["rotations"] (fun m =>
    device <- read as_device "device" m ;;
    ret (VTensor script_rotations device));
  (* translations = torch.tensor([[bx - focal_len / 3, by, bz]], device=device) *)
  Assign ["translations"] (translations_tensor rows);
  (* pose = convert(rotations, translations, parameterization="euler_angles", convention="ZYX") *)
  Assign ["pose"] (fun m =>
    rotations <- read as_tensor "rotations" m ;;
    translations <- read as_tensor "translations" m ;;
    convert rotations translations "euler_angles" "ZYX");
  (* camera, detector, texture, principal_ray = img_to_mesh(drr, pose) *)
  Assign ["camera"; "detector"; "texture"; "principal_ray"] (fun m =>
    drr <- read as_renderer "drr" m ;;
    pose <- read as_pose "pose" m ;;
    img_to_mesh drr pose);
  (* plotter = pyvista.Plotter() *)
  Assign ["plotter"] (fun _ => Plotter);
  (* plotter.add_mesh(ct) *)
  Mutate "plotter" (fun m self =>
    ct <- read as_mesh "ct" m ;;
    add_actor (EvAddMesh "ct") self (AMesh ct plain));
  (* plotter.add_mesh(camera, show_edges=True, line_width=1.5) *)
  Mutate "plotter" (fun m self =>
    camera <- read as_mesh "camera" m ;;
    add_actor (EvAddMesh "camera") self (AMesh camera camera_opts));
  (* plotter.add_mesh(principal_ray, color="lime", line_width=3) *)
  Mutate "plotter" (fun m self =>
    principal_ray <- read as_mesh "principal_ray" m ;;
    add_actor (EvAddMesh "principal_ray") self (AMesh principal_ray ray_opts));
  (* plotter.add_mesh(detector, texture=texture) *)
  Mutate "plotter" (fun m self =>
    detector <- read as_mesh "detector" m ;;
    texture <- read as_texture "texture" m ;;
    add_actor (EvAddMesh "detector") self (AMesh detector (textured texture)));
  (* plotter.add_axes() *)
  Mutate "plotter" (fun _ self => add_actor EvAddAxes self AAxes);
  (* plotter.add_bounding_box() *)
  Mutate "plotter" (fun _ self => add_actor EvAddBoundingBox self ABoundingBox);
  (* plotter.export_html("render.html") *)
  WriteFile "render.html" (fun m =>
    scene <- read as_plotter "plotter" m ;;
    call (EvExportHtml "render.html") ;;;
    expect (to_html E scene) (LibraryError (EvExportHtml "render.html")))
].

Definition cell_display : list Stmt := [
  (* IFrame("render.html", height=500, width=749) *)
  Show (fun _ =>
    call (EvIFrame "render.html") ;;;
    ret (VIFrame {| src := "render.html"; height := 500; width := 749 |}))
].

(** The statements of the code cells that follow the imports, in order,
    with the backend name and the translation rows as parameters. *)
Definition pipeline (method : string)
    (rows : Qc -> Qc -> Qc -> Qc -> list (list Qc)) : list Stmt :=
  cell_setup ++ cell_scene method rows ++ cell_display.

(** The notebook as written. *)
Definition notebook : list Stmt := pipeline "surface_nets" script_translations.

Definition run (w : World) : Outcome := exec notebook w.

(** The import statements of the first two code cells. *)
Definition cell_imports : list Stmt := [
  (* import pyvista *)
  import_module "pyvista";
  (* import torch *)
  import_module "torch";
  (* from diffdrr.data import load_example_ct *)
  import_from "diffdrr.data" "load_example_ct";
  (* from diffdrr.drr import DRR *)
  import_from "diffdrr.drr" "DRR";
  (* from diffdrr.pose import convert *)
  import_from "diffdrr.pose" "convert";
  (* from diffdrr.visualization import drr_to_mesh, img_to_mesh *)
  import_from "diffdrr.visualization" "drr_to_mesh";
  import_from "diffdrr.visualization" "img_to_mesh"
].

(** The library names each statement of [cell_setup ++ cell_scene] looks
    up, statement by statement. *)
Definition library_reads : list (list string) :=
  [["torch"]; ["load_example_ct"]; ["torch"]; []; ["torch"]; ["DRR"];
   ["drr_to_mesh"]; ["torch"]; ["torch"]; ["convert"]; ["img_to_mesh"];
   ["pyvista"]; []; []; []; []; []; []; []].

(** All the code cells of the notebook, imports and library names
    included. *)
Definition code_cells : list Stmt :=
  cell_imports
  ++ zip_with reading library_reads
       (cell_setup ++ cell_scene "surface_nets" script_translations)
  (* from IPython.display import IFrame *)
  ++ [import_from "IPython.display" "IFrame"]
  ++ zip_with reading [["IFrame"]] cell_display.

End Notebook.

(** ** A small concrete environment, for running the notebook *)

Definition origin : Point := (Z2Qc 0, Z2Qc 0, Z2Qc 0).

Definition identity3 : Mat3 :=
  ((Z2Qc 1, Z2Qc 0, Z2Qc 0), (Z2Qc 0, Z2Qc 1, Z2Qc 0), (Z2Qc 0, Z2Qc 0, Z2Qc 1)).

Definition demo_volume (sh : list Z) : Volume :=
  {| shape := sh; voxels := [Z2Qc 0; Z2Qc 1200] |}.

(** Its tensor arithmetic is exact, as binary32 arithmetic is on the small
    integers of these examples. *)
Definition demo_env (sh : list Z) (sp : list Qc) : Env := {|
  importable := fun _ => true;
  torch_mul := fun s p => Z2Qc s * p;
  torch_div := fun x d => x / Z2Qc d;
  torch_sub := fun x y => x - y;
  cuda_is_available := false;
  example_ct := Some (demo_volume sh, sp);
  drr_accepts := fun _ _ _ _ _ => true;
  device_usable := fun _ => true;
  isosurface := fun _ v _ _ => Some {| points := [origin]; cells := [[0%nat]] |};
  rotation_matrix := fun _ _ _ => Some identity3;
  detector_frame := fun r =>
    ((Z2Qc 0, Z2Qc 0, drr_sdr r),
     [(Z2Qc 0, Z2Qc 0, - drr_sdr r); (drr_delx r, Z2Qc 0, - drr_sdr r)]);
  detector_cells := fun _ => [[0%nat; 1%nat]];
  project := fun _ _ => Some [[Z2Qc 1]];
  frustum := fun s t => {| points := s :: t; cells := [] |};
  segment := fun s t => {| points := s :: take 1 t; cells := [] |};
  can_add := fun _ _ => true;
  to_html := fun scene => Some (String.concat "" (map (fun _ => "<actor/>") scene))
|}.

Definition demo : Env := demo_env [2; 4; 6]%Z [Z2Qc 1; Z2Qc 1; Z2Qc 1].

(** The same, with a loader that raises. *)
Definition demo_no_volume : Env := {|
  importable := importable demo;
  torch_mul := torch_mul demo;
  torch_div := torch_div demo;
  torch_sub := torch_sub demo;
  cuda_is_available := cuda_is_available demo;
  example_ct := None;
  drr_accepts := drr_accepts demo;
  device_usable := device_usable demo;
  isosurface := isosurface demo;
  rotation_matrix := rotation_matrix demo;
  detector_frame := detector_frame demo;
  detector_cells := detector_cells demo;
  project := project demo;
  frustum := frustum demo;
  segment := segment demo;
  can_add := can_add demo;
  to_html := to_html demo
|}.

(** The same as [demo], with an export that stamps the page. *)
Definition demo_stamped : Env := {|
  importable := importable demo;
  torch_mul := torch_mul demo;
  torch_div := torch_div demo;
  torch_sub := torch_sub demo;
  cuda_is_available := cuda_is_available demo;
  example_ct := example_ct demo;
  drr_accepts := drr_accepts demo;
  device_usable := device_usable demo;
  isosurface := isosurface demo;
  rotation_matrix := rotation_matrix demo;
  detector_frame := detector_frame demo;
  detector_cells := detector_cells demo;
  project := project demo;
  frustum := frustum demo;
  segment := segment demo;
  can_add := can_add demo;
  to_html := fun scene =>
    (fun page => ("<!-- second export -->" ++ page)%string) <$> to_html demo scene
|}.

(** The same as [demo], without PyVista installed. *)
Definition demo_no_pyvista : Env := {|
  importable := fun x => negb (String.eqb x "pyvista");
  torch_mul := torch_mul demo;
  torch_div := torch_div demo;
  torch_sub := torch_sub demo;
  cuda_is_available := cuda_is_available demo;
  example_ct := example_ct demo;
  drr_accepts := drr_accepts demo;
  device_usable := device_usable demo;
  isosurface := isosurface demo;
  rotation_matrix := rotation_matrix demo;
  detector_frame := detector_frame demo;
  detector_cells := detector_cells demo;
  project := project demo;
  frustum := frustum demo;
  segment := segment demo;
  can_add := can_add demo;
  to_html := to_html demo
|}.

(** An environment with another tensor subtraction. *)
Definition with_torch_sub (E : Env) (sub : Qc -> Qc -> Qc) : Env := {|
  importable := importable E;
  torch_mul := torch_mul E;
  torch_div := torch_div E;
  torch_sub := sub;
  cuda_is_available := cuda_is_available E;
  example_ct := example_ct E;
  drr_accepts := drr_accepts E;
  device_usable := device_usable E;
  isosurface := isosurface E;
  rotation_matrix := rotation_matrix E;
  detector_frame := detector_frame E;
  detector_cells := detector_cells E;
  project := project E;
  frustum := frustum E;
  segment := segment E;
  can_add := can_add E;
  to_html := to_html E
|}.

(** A subtraction that rounds down to a whole number, as a format with no
    fractional digits would. *)
Definition floor_sub (x y : Qc) : Qc := Z2Qc (Qfloor (x - y)).

Definition demo_coarse_two : Env :=
  with_torch_sub (demo_env [2; 1; 1]%Z [Z2Qc 1; Z2Qc 1; Z2Qc 1]) floor_sub.

Definition demo_coarse_three : Env :=
  with_torch_sub (demo_env [3; 1; 1]%Z [Z2Qc 1; Z2Qc 1; Z2Qc 1]) floor_sub.

(** A kernel that has run nothing, in an empty directory. *)
Definition fresh : World := {| ns := ∅; fs := ∅; trace := []; out := [] |}.

(** ** What a completed run computes *)

Record Results := {
  r_volume : Volume;
  r_spacing : list Qc;
  r_center : Qc * Qc * Qc;
  r_ct : Mesh;
  r_rotation : Mat3;
  r_translation : Point;
  r_image : Image;
  r_html : string
}.

Section Results.

Context (E : Env) (r : Results).

Definition renderer_of : Renderer :=
  {| drr_volume := r_volume r; drr_spacing := r_spacing r;
     drr_sdr := focal_len_value / Z2Qc 2; drr_height := 200;
     drr_delx := Z2Qc 2; drr_device := chosen_device E |}.

Definition pose_of : Pose :=
  {| rotation := r_rotation r; translation := r_translation r |}.

Definition source_of : Point :=
  apply_pose pose_of (fst (detector_frame E renderer_of)).

Definition detector_of : Mesh := detector_plane E renderer_of pose_of.

Definition camera_of : Mesh := frustum E source_of (points detector_of).

Definition ray_of : Mesh := segment E source_of (points detector_of).

Definition scene_of : list Actor :=
  [AMesh (r_ct r) plain; AMesh camera_of camera_opts; AMesh ray_of ray_opts;
   AMesh detector_of (textured (r_image r)); AAxes; ABoundingBox].

Definition translation_rows : list (list Qc) :=
  let '(tx, ty, tz) := r_translation r in [[tx; ty; tz]].

Definition center_list : list Qc :=
  let '(bx, by_, bz) := r_center r in [bx; by_; bz].

(** The namespace writes of a completed run, in order. *)
Definition writes : list (string * PyVal) :=
  [("device", VDevice (chosen_device E));
   ("volume", VVolume (r_volume r));
   ("spacing", VArray (r_spacing r));
   ("bx", VFloat (r_center r).1.1);
   ("by", VFloat (r_center r).1.2);
   ("bz", VFloat (r_center r).2);
   ("focal_len", VFloat focal_len_value);
   ("device", VDevice (chosen_device E));
   ("drr", VRenderer renderer_of);
   ("ct", VMesh (r_ct r));
   ("rotations", VTensor script_rotations (chosen_device E));
   ("translations", VTensor translation_rows (chosen_device E));
   ("pose", VPose pose_of);
   ("camera", VMesh camera_of);
   ("detector", VMesh detector_of);
   ("texture", VTexture (r_image r));
   ("principal_ray", VMesh ray_of)]
  ++ map (fun k => ("plotter", VPlotter (take k scene_of))) (seq 0 7).

Definition write (m : gmap string PyVal) (b : string * PyVal) : gmap string PyVal :=
  <[b.1 := b.2]> m.

End Results.

Definition full_trace (E : Env) (method : string) : list Event :=
  [EvDevice (chosen_device E); EvLoadCT; EvDevice (chosen_device E); EvDRR;
   EvTo (chosen_device E); EvDrrToMesh method; EvConvert; EvImgToMesh;
   EvRender; EvPlotter; EvAddMesh "ct"; EvAddMesh "camera";
   EvAddMesh "principal_ray"; EvAddMesh "detector"; EvAddAxes;
   EvAddBoundingBox; EvExportHtml "render.html"; EvIFrame "render.html"].

Definition the_iframe : PyVal :=
  VIFrame {| src := "render.html"; height := 500; width := 749 |}.

(** The state a completed run leaves behind. *)
Definition final (E : Env) (method : string) (r : Results) (w : World) : World :=
  {| ns := foldl write (ns w) (writes E r);
     fs := <["render.html" := r_html r]> (fs w);
     trace := trace w ++ full_trace E method;
     out := out w ++ [the_iframe] |}.

(** Whether the plotter accepts the actors one after the other. *)
Fixpoint addable (E : Env) (scene todo : list Actor) : bool :=
  match todo with
  | [] => true
  | a :: todo => can_add E scene a && addable E (scene ++ [a]) todo
  end.

(** No statement of the pipeline raises: every library call succeeds, with
    the results [r], and the isocenter has its three components. *)
Definition completes (E : Env) (method : string)
    (rows : Qc -> Qc -> Qc -> Qc -> list (list Qc)) (r : Results) : Prop :=
  example_ct E = Some (r_volume r, r_spacing r) /\
  isocenter E (r_volume r) (r_spacing r) = ret (center_list r) /\
  drr_accepts E (r_volume r) (r_spacing r) (focal_len_value / Z2Qc 2) 200 (Z2Qc 2) = true /\
  device_usable E (chosen_device E) = true /\
  supported method = true /\
  isosurface E method (r_volume r) (r_spacing r) (Z2Qc 1150) = Some (r_ct r) /\
  rows (r_center r).1.1 focal_len_value (r_center r).1.2 (r_center r).2
    = translation_rows r /\
  rotation_matrix E "euler_angles" "ZYX" [Z2Qc 1; Z2Qc 0; Z2Qc 1 / Z2Qc 2]
    = Some (r_rotation r) /\
  project E (renderer_of E r) (pose_of r) = Some (r_image r) /\
  addable E [] (scene_of E r) = true /\
  to_html E (scene_of E r) = Some (r_html r).

(** ** The states a run goes through

    The state before the first statement, then the state after each
    statement; a raising statement contributes the state it leaves and ends
    the list. *)
Fixpoint states (l : list Stmt) (w : World) : list World :=
  w :: match l with
       | [] => []
       | s :: l =>
           match exec_stmt s w with
           | Done w1 => states l w1
           | Raised _ w1 => [w1]
           end
       end.

(** A binding, once made, keeps its value in every later state, for every
    name outside [excluded]. *)
Definition persists (excluded : list string) (l : list Stmt) (w : World) : Prop :=
  forall (i j : nat) (wi wj : World) (x : string) (v : PyVal),
    (i <= j)%nat ->
    states l w !! i = Some wi -> states l w !! j = Some wj ->
    x ∉ excluded ->
    ns wi !! x = Some v -> ns wj !! x = Some v.

(** ** Steps of the pipeline *)

Inductive Stage :=
| SelectDevice | CreateVolume | CreateRenderer | ExtractMesh | ComputePose
| RenderProjection | BuildScene | Export | ShowPage.

#[local] Instance Stage_eq_dec : EqDecision Stage.
Proof. solve_decision. Defined.

(** The step a library call belongs to. *)
Definition stage_of (ev : Event) : Stage :=
  match ev with
  | EvDevice _ => SelectDevice
  | EvLoadCT => CreateVolume
  | EvDRR | EvTo _ => CreateRenderer
  | EvDrrToMesh _ => ExtractMesh
  | EvConvert => ComputePose
  | EvImgToMesh | EvRender => RenderProjection
  | EvPlotter | EvAddMesh _ | EvAddAxes | EvAddBoundingBox => BuildScene
  | EvExportHtml _ => Export
  | EvIFrame _ => ShowPage
  end.

(** Consecutive calls of one step count once. *)
Fixpoint squash (l : list Stage) : list Stage :=
  match l with
  | a :: (b :: _) as l' => if decide (a = b) then squash l' else a :: squash l'
  | _ => l
  end.

Definition stages (t : list Event) : list Stage := squash (map stage_of t).

(** The steps of the cells, in the order of the statements: the device is
    selected twice (lines 73 and 81), the exported page is shown last. *)
Definition script_steps : list Stage :=
  [SelectDevice; CreateVolume; SelectDevice; CreateRenderer; ExtractMesh;
   ComputePose; RenderProjection; BuildScene; Export; ShowPage].

(** The seven steps C5 names. *)
Definition step_sequence : list Stage :=
  [CreateVolume; CreateRenderer; ExtractMesh; ComputePose; RenderProjection;
   BuildScene; Export].

(** Selecting the device and showing the page are not among them. *)
Definition named_step (s : Stage) : bool :=
  match s with
  | SelectDevice | ShowPage => false
  | _ => true
  end.

(** The calls a run of the notebook adds to the log. *)
Definition calls_of_run (E : Env) (w : World) : list Event :=
  drop (length (trace w)) (trace (world_of (run E w))).

(** C5 in its own words: every execution performs exactly the seven
    steps. *)
Definition always_all_steps : Prop :=
  forall E w, List.filter named_step (stages (calls_of_run E w)) = step_sequence.

(** Calls that render a projection or build or export the scene. *)
Definition renders_or_builds (ev : Event) : bool :=
  match ev with
  | EvImgToMesh | EvRender | EvPlotter | EvAddMesh _ | EvAddAxes
  | EvAddBoundingBox | EvExportHtml _ | EvIFrame _ => true
  | _ => false
  end.

(** Calls that select a device or place a module on one. *)
Definition is_device_event (ev : Event) : bool :=
  match ev with
  | EvDevice _ | EvTo _ => true
  | _ => false
  end.

(** ** Observations on a state *)

Definition output_size (w : World) : option nat :=
  String.length <$> fs w !! "render.html".

Definition camera_translation (w : World) : option (list (list Qc)) :=
  match ns w !! "translations" with
  | Some (VTensor rows _) => Some rows
  | _ => None
  end.

Definition loaded_shape (E : Env) : option (list Z) :=
  (fun ct => shape (fst ct)) <$> example_ct E.

Definition loaded_spacing (E : Env) : option (list Qc) :=
  snd <$> example_ct E.

Definition loaded_isocenter (E : Env) : option (Exn + list Qc) :=
  (fun ct => value (isocenter E (fst ct) (snd ct))) <$> example_ct E.

Definition demo_two_voxels : Env :=
  demo_env [2; 1; 1]%Z [Z2Qc 1; Z2Qc 1; Z2Qc 1].

Definition demo_one_voxel : Env :=
  demo_env [1; 1; 1]%Z [Z2Qc 2; Z2Qc 1; Z2Qc 1].

(** C9 in its own words: any change to the shape or the spacing of the
    loaded volume changes the camera translation. *)
Definition translation_tracks_volume : Prop :=
  forall E1 E2 w1 w2 a b,
    run E1 w1 = Done a -> run E2 w2 = Done b ->
    loaded_shape E1 <> loaded_shape E2 \/ loaded_spacing E1 <> loaded_spacing E2 ->
    camera_translation a <> camera_translation b.

(** What one statement may do to the plotter: keep it, or add one actor. *)
Definition grows (o o' : option PyVal) : Prop :=
  forall scene, o = Some (VPlotter scene) ->
    o' = Some (VPlotter scene) \/
    exists a, o' = Some (VPlotter (scene ++ [a])).

(** ** Further vocabulary for stating properties of runs *)

(** The names the notebook binds. *)
Definition script_names : list string :=
  ["device"; "volume"; "spacing"; "bx"; "by"; "bz"; "focal_len"; "drr"; "ct";
   "rotations"; "translations"; "pose"; "camera"; "detector"; "texture";
   "principal_ray"; "plotter"].


(** What the import system is asked for, in order. *)
Definition library_names : list string :=
  ["pyvista"; "torch"; "diffdrr.data.load_example_ct"; "diffdrr.drr.DRR";
   "diffdrr.pose.convert"; "diffdrr.visualization.drr_to_mesh";
   "diffdrr.visualization.img_to_mesh"; "IPython.display.IFrame"].

(** The namespace after the import statements of the first two cells. *)
Definition imported (m : gmap string PyVal) : gmap string PyVal :=
  <["img_to_mesh" := VLibrary "diffdrr.visualization.img_to_mesh"]>
  (<["drr_to_mesh" := VLibrary "diffdrr.visualization.drr_to_mesh"]>
  (<["convert" := VLibrary "diffdrr.pose.convert"]>
  (<["DRR" := VLibrary "diffdrr.drr.DRR"]>
  (<["load_example_ct" := VLibrary "diffdrr.data.load_example_ct"]>
  (<["torch" := VLibrary "torch"]>
  (<["pyvista" := VLibrary "pyvista"]> m)))))).

Definition with_imports (w : World) : World := set_ns imported w.

(** The library results of a run in the environment [demo]. *)
Definition demo_results : Results :=
  let bx := torch_div demo (torch_mul demo 2 (Z2Qc 1)) 2 in
  let by_ := torch_div demo (torch_mul demo 4 (Z2Qc 1)) 2 in
  let bz := torch_div demo (torch_mul demo 6 (Z2Qc 1)) 2 in
  {| r_volume := demo_volume [2; 4; 6]%Z;
     r_spacing := [Z2Qc 1; Z2Qc 1; Z2Qc 1];
     r_center := (bx, by_, bz);
     r_ct := {| points := [origin]; cells := [[0%nat]] |};
     r_rotation := identity3;
     r_translation := (torch_sub demo bx (focal_len_value / Z2Qc 3), by_, bz);
     r_image := [[Z2Qc 1]];
     r_html := "<actor/><actor/><actor/><actor/><actor/><actor/>" |}.


Definition writes_file (s : Stmt) : bool :=
  match s with WriteFile _ _ => true | _ => false end.

Definition shows (s : Stmt) : bool :=
  match s with Show _ => true | _ => false end.

(** A volume with two axes only. *)
Definition demo_flat : Env := demo_env [2; 4]%Z [Z2Qc 1; Z2Qc 1].

(** A kernel that has been used before: a stale [plotter], a variable of
    the user's, an older [render.html]. *)
Definition used_kernel : World :=
  {| ns := <["notes" := VFloat (Z2Qc 7)]> (<["plotter" := VFloat (Z2Qc 0)]> ∅);
     fs := <["render.html" := "an older page"]> ∅;
     trace := [EvLoadCT];
     out := [] |}.

(** * The notebook at work *)

Example demo_run_completes :
  exists w',
    run demo fresh = Done w' /\
    trace w' = full_trace demo "surface_nets" /\
    stages (trace w') = script_steps /\
    List.filter named_step (stages (trace w')) = step_sequence /\
    fs w' !! "render.html"
      = Some "<actor/><actor/><actor/><actor/><actor/><actor/>" /\
    output_size w' = Some 48%nat /\
    out w' = [the_iframe].
Proof.
  eexists. split; [vm_compute; reflexivity|].
  repeat split; vm_compute; reflexivity.
Qed.

Example demo_translation :
  camera_translation (world_of (run demo fresh))
  = Some [[Z2Qc (-339); Z2Qc 2; Z2Qc 3]].
Proof.
  apply (bool_decide_unpack _). by vm_compute.
Qed.

Example demo_load_fails :
  exists e w',
    run demo_no_volume fresh = Raised e w' /\
    e = LibraryError EvLoadCT /\
    trace w' = [EvDevice Cpu; EvLoadCT] /\ fs w' = ∅.
Proof.
  eexists _, _. split; [vm_compute; reflexivity|]. by repeat split.
Qed.

Example demo_broadcast :
  exists c,
    value (isocenter demo (demo_volume [2; 4; 6]%Z) [Z2Qc 3]) = inr c /\
    c = [Z2Qc 3; Z2Qc 6; Z2Qc 9].
Proof.
  eexists. split; [vm_compute; reflexivity|].
  apply (bool_decide_unpack _). by vm_compute.
Qed.

Example demo_mismatch :
  value (isocenter demo (demo_volume [2; 4; 6]%Z) [Z2Qc 1; Z2Qc 1])
  = inl (RuntimeError
           "The size of tensor a (3) must match the size of tensor b (2) at non-singleton dimension 0").
Proof. reflexivity. Qed.

Example demo_unpack :
  unpack ["bx"; "by"; "bz"] (VArray [Z2Qc 1; Z2Qc 2])
  = inl (ValueError "not enough values to unpack (expected 3, got 2)") /\
  unpack ["bx"; "by"; "bz"] (VArray [Z2Qc 1; Z2Qc 2; Z2Qc 3; Z2Qc 4])
  = inl (ValueError "too many values to unpack (expected 3)").
Proof. split; reflexivity. Qed.

Example demo_flat_raises :
  exists w',
    run demo_flat fresh
    = Raised (ValueError "not enough values to unpack (expected 3, got 2)") w' /\
    trace w' = [EvDevice Cpu; EvLoadCT].
Proof. eexists. split; [vm_compute; reflexivity|reflexivity]. Qed.

(** With a subtraction that rounds, isocenters that differ can give one
    translation. *)
Example coarse_subtraction_absorbs :
  loaded_isocenter demo_coarse_two <> loaded_isocenter demo_coarse_three /\
  camera_translation (world_of (run demo_coarse_two fresh))
  = camera_translation (world_of (run demo_coarse_three fresh)) /\
  camera_translation (world_of (run demo_coarse_two fresh))
  = Some [[Z2Qc (-339); Z2Qc 1 / Z2Qc 2; Z2Qc 1 / Z2Qc 2]].
Proof.
  split; [|split].
  - intros H.
    apply (f_equal (fun o : option (Exn + list Qc) =>
             match o with
             | Some (inr (x :: _)) => Qnum (this x)
             | _ => 0%Z
             end)) in H.
    vm_compute in H. discriminate H.
  - apply (bool_decide_unpack _). by vm_compute.
  - apply (bool_decide_unpack _). by vm_compute.
Qed.

Example demo_results_values :
  r_center demo_results = (Z2Qc 1, Z2Qc 2, Z2Qc 3) /\
  r_translation demo_results = (Z2Qc (-339), Z2Qc 2, Z2Qc 3).
Proof. split; apply (bool_decide_unpack _); by vm_compute. Qed.

(** An export that is not reproducible shows in the size of the file. *)
Example demo_stamped_size :
  output_size (world_of (run demo fresh)) = Some 48%nat /\
  output_size (world_of (run demo_stamped fresh)) = Some 70%nat.
Proof. split; vm_compute; reflexivity. Qed.

Example demo_import_fails :
  exists w',
    exec (code_cells demo_no_pyvista) fresh = Raised (ImportError "pyvista") w' /\
    w' = fresh.
Proof. eexists. split; [vm_compute; reflexivity|reflexivity]. Qed.

Example demo_cells_complete :
  exists w',
    exec (code_cells demo) fresh = Done w' /\
    trace w' = full_trace demo "surface_nets" /\
    fs w' = fs (world_of (run demo fresh)) /\
    ns w' !! "IFrame" = Some (VLibrary "IPython.display.IFrame").
Proof.
  eexists. split; [vm_compute; reflexivity|].
  repeat split; vm_compute; reflexivity.
Qed.

(** * Symbolic execution

    [pipeline_cases] runs the cells on an arbitrary environment and state,
    splitting on the result of each library call: either every call succeeds
    and the state is [final], or the run raises after an initial segment of
    [full_trace], with the files and the outputs untouched. *)

Lemma tensor_mul_calls E a b : calls (tensor_mul E a b) = [].
Proof.
  unfold tensor_mul. destruct (Nat.eqb _ _); [done|].
  destruct a as [|x [|]]; destruct b as [|y [|]]; done.
Qed.

Lemma isocenter_calls E v s : calls (isocenter E v s) = [].
Proof.
  unfold isocenter, bind.
  pose proof (tensor_mul_calls E (shape v) s) as H.
  destruct (tensor_mul _ _ _) as [c [e|p]]; simpl in *; subst; done.
Qed.

(** The isocenter line raises in torch only when the two sizes differ and
    neither is one. *)
Lemma isocenter_raises E v s e :
  value (isocenter E v s) = inl e ->
  e = RuntimeError (size_mismatch (length (shape v)) (length s)) /\
  length (shape v) <> length s /\
  length (shape v) <> 1%nat /\ length s <> 1%nat.
Proof.
  unfold isocenter, bind, tensor_mul.
  destruct (Nat.eqb _ _) eqn:Hn; [done|]. apply Nat.eqb_neq in Hn.
  destruct (shape v) as [|x [|]]; destruct s as [|y [|]];
    cbn in *; intros H; try discriminate H;
    injection H as <-; repeat split; try done; lia.
Qed.

Lemma isocenter_ret E v s c :
  value (isocenter E v s) = inr c -> isocenter E v s = ret c.
Proof.
  pose proof (isocenter_calls E v s) as Hc.
  destruct (isocenter E v s) as [cs [e|c']]; cbn in *; intros H; [done|].
  injection H as ->. by subst cs.
Qed.

(** The length of the isocenter tensor: that of the longer operand. *)
Lemma isocenter_length E v s c :
  value (isocenter E v s) = inr c ->
  length c = Nat.max (length (shape v)) (length s) \/
  (length c = 0%nat /\ (shape v = [] \/ s = [])).
Proof.
  unfold isocenter, bind, tensor_mul, tensor_div.
  destruct (Nat.eqb _ _) eqn:Hn.
  - apply Nat.eqb_eq in Hn. cbn. intros [= <-]. left.
    rewrite length_map, length_zip_with. lia.
  - destruct (shape v) as [|x [|]]; destruct s as [|y [|]];
      cbn in *; intros H; try discriminate H; injection H as <-;
      cbn; rewrite ?length_map; first [left; cbn; lia | right; by auto].
Qed.

(** Unfold the interpreter and the library functions, nothing else. *)
Ltac ev :=
  cbn [exec exec_stmt unpack iterate bind_names length Nat.eqb Nat.ltb Nat.leb
       map value calls
       bind ret raise call expect require
       as_device as_volume as_array as_float as_tensor as_renderer as_mesh
       as_texture as_pose as_plotter
       select_device load_example_ct DRR to drr_to_mesh convert img_to_mesh
       Plotter add_actor script_rotations
       app fst snd drr_volume drr_spacing drr_sdr drr_height drr_delx
       drr_device ns fs trace out set_ns set_fs log display world_of].

(** Resolve the lookups of names the notebook has bound before. *)
Ltac look :=
  repeat first [ rewrite lookup_insert_eq | rewrite lookup_insert_ne by done ].

Ltac go :=
  repeat (progress (ev; unfold read, name, translations_tensor; look; ev));
  cbv [display log set_ns set_fs ns fs trace out].

(** The number of calls a raising run has made. *)
Ltac find_prefix k :=
  first [ exists k; split; [lia|]; split; [reflexivity|]
        | match k with
          | 18%nat => fail 1
          | _ => find_prefix (S k)
          end ].

(** A run that raised cannot have had every call succeed. *)
Ltac refute_completes :=
  let r := fresh "r" in
  intros r;
  destruct r as [v0 s0 [[a0 b0] c0] m0 R0 [[x0 y0] z0] i0 h0];
  unfold completes, renderer_of, pose_of, scene_of, camera_of, ray_of,
    detector_of, source_of, renderer_of, pose_of, translation_rows, center_list;
  cbn [r_volume r_spacing r_center r_ct r_rotation r_translation r_image r_html
       fst snd addable app];
  intros (? & ? & ? & ? & ? & ? & ? & ? & ? & ? & ?);
  unfold ret in *;
  simplify_eq;
  repeat match goal with
         | H1 : ?a = _, H2 : ?a = _ |- _ => rewrite H1 in H2; simplify_eq
         end;
  repeat match goal with
         | H : ?b = false |- _ => rewrite H in *
         | H : ?b = true |- _ => rewrite H in *
         end;
  cbn [andb] in *;
  simplify_eq; try congruence; try done.

(** The branch where a call has just raised. *)
Ltac failed :=
  split; [reflexivity|]; split; [reflexivity|]; split; [solve [refute_completes]|];
  rewrite <- ?app_assoc; cbn [app];
  find_prefix 0%nat;
  split; [ first [ intros _; split; [lia | first [reflexivity | intros; lia]]
                 | intros; congruence ]
         | first [ intros; discriminate | intros; congruence | idtac ] ].

Lemma pipeline_cases E method rows w :
  match exec (pipeline E method rows) w with
  | Done w' => exists r, completes E method rows r /\ w' = final E method r w
  | Raised e w' =>
      fs w' = fs w /\ out w' = out w /\
      (forall r, ~ completes E method rows r) /\
      exists k, (k < 18)%nat /\
        trace w' = trace w ++ take k (full_trace E method) /\
        (supported method = false ->
           (k <= 6)%nat /\ (k = 6%nat -> e = UnsupportedBackend method)) /\
        (forall m, e = UnsupportedBackend m -> supported method = false)
  end.
Proof.
  destruct w as [m f t o].
  unfold pipeline, cell_setup, cell_scene, cell_display.
  go.
  destruct (example_ct E) as [[vol sp]|] eqn:Hct; go; [|failed].
  pose proof (isocenter_calls E vol sp) as Hc.
  pose proof (isocenter_raises E vol sp) as He.
  destruct (isocenter E vol sp) as [cs [e|c]] eqn:Hiso; cbn [calls value] in Hc, He;
    subst cs; go; [destruct (He e eq_refl) as [-> _]; failed|clear He].
  destruct c as [|bx [|by_ [|bz [|]]]]; go; try failed.
  destruct (drr_accepts E vol sp _ _ _) eqn:Hacc; go; [|failed].
  destruct (device_usable E _) eqn:Hdev; go; [|failed].
  destruct (supported method) eqn:Hsup; go; [|failed].
  destruct (isosurface E method _ _ _) as [ct|] eqn:Hmesh; go; [|failed].
  match goal with |- context [rows ?a ?b ?c ?d] =>
    destruct (rows a b c d) as [|[|tx [|ty [|tz [|]]]] [|]] eqn:Hrows end; go; try failed.
  match goal with |- context [rotation_matrix E ?a ?b ?c] =>
    destruct (rotation_matrix E a b c) as [R|] eqn:Hrot end; go; [|failed].
  match goal with |- context [project E ?a ?b] =>
    destruct (project E a b) as [img|] eqn:Himg end; go; [|failed].
  do 6 (match goal with |- context [can_add E ?a ?b] =>
    destruct (can_add E a b) eqn:? end; go; [|failed]).
  match goal with |- context [to_html E ?a] =>
    destruct (to_html E a) as [html|] eqn:Hhtml end; go; [|failed].
  exists {| r_volume := vol; r_spacing := sp; r_center := (bx, by_, bz);
            r_ct := ct; r_rotation := R; r_translation := (tx, ty, tz);
            r_image := img; r_html := html |}.
  split.
  - unfold completes, renderer_of, pose_of, scene_of, camera_of, ray_of,
      detector_of, source_of, renderer_of, pose_of, translation_rows, center_list.
    cbn [r_volume r_spacing r_center r_ct r_rotation r_translation r_image
         r_html fst snd addable app].
    repeat match goal with H : _ = true |- _ => rewrite H; clear H end.
    repeat split; done.
  - unfold final, writes, scene_of, camera_of, ray_of, detector_of, source_of,
        renderer_of, pose_of, translation_rows, the_iframe.
    cbn [foldl app map seq take write fst snd r_volume r_spacing r_center r_ct
         r_rotation r_translation r_image r_html ns fs trace out].
    rewrite <- ?app_assoc. reflexivity.
Qed.

(** * Frames: what a statement leaves alone *)

Lemma bind_names_other xs : forall vs (m : gmap string PyVal) x,
  x ∉ xs -> bind_names xs vs m !! x = m !! x.
Proof.
  induction xs as [|y xs IH]; intros [|v vs] m x Hx; cbn; try done.
  rewrite IH by set_solver. apply lookup_insert_ne. set_solver.
Qed.

Lemma exec_stmt_ns s w x :
  x ∉ targets_of s -> ns (world_of (exec_stmt s w)) !! x = ns w !! x.
Proof.
  destruct s as [ts rhs|obj method|file rhs|rhs]; cbn; intros Hx.
  - destruct (value (rhs (ns w))) as [e|v]; [done|].
    destruct (unpack ts v) as [e|vs]; [done|].
    cbn. by apply bind_names_other.
  - destruct (ns w !! obj) as [self|]; [|done].
    destruct (value (method (ns w) self)); [done|].
    cbn. apply lookup_insert_ne. set_solver.
  - by destruct (value (rhs (ns w))).
  - by destruct (value (rhs (ns w))).
Qed.

(** * The states of a run *)

Lemma states_head l w : states l w !! 0%nat = Some w.
Proof. by destruct l. Qed.

Lemma states_step l : forall w i w',
  states l w !! S i = Some w' ->
  exists s wi, l !! i = Some s /\ states l w !! i = Some wi /\
               w' = world_of (exec_stmt s wi).
Proof.
  induction l as [|s l IH]; intros w i w' H; [done|].
  cbn in H. destruct (exec_stmt s w) as [w1|e w1] eqn:Hs.
  - destruct i as [|i].
    + rewrite states_head in H. injection H as <-.
      exists s, w. by rewrite Hs.
    + destruct (IH _ _ _ H) as (s' & wi & Hl & Hi & ->).
      exists s', wi. cbn. by rewrite Hs.
  - destruct i as [|i]; [|done]. injection H as <-.
    exists s, w. by rewrite Hs.
Qed.

(** A property that every statement in positions [i..j) preserves carries
    over from state [i] to state [j]. *)
Lemma states_carry (P : World -> Prop) l w :
  forall j i wi wj, (i <= j)%nat ->
  states l w !! i = Some wi -> states l w !! j = Some wj ->
  (forall k s, (i <= k < j)%nat -> l !! k = Some s ->
     forall w0, P w0 -> P (world_of (exec_stmt s w0))) ->
  P wi -> P wj.
Proof.
  induction j as [|j IH]; intros i wi wj Hij Hi Hj Hstep HP.
  - assert (i = 0%nat) as -> by lia. congruence.
  - destruct (decide (i = S j)) as [->|Hne]; [congruence|].
    destruct (states_step _ _ _ _ Hj) as (s & wj' & Hl & Hj' & ->).
    apply (Hstep j s); [lia|done|].
    apply (IH i wi wj'); [lia|done|done| |done].
    intros k s' Hk. apply Hstep. lia.
Qed.

Lemma states_stable l w x i j wi wj :
  (i <= j)%nat ->
  states l w !! i = Some wi -> states l w !! j = Some wj ->
  (forall k s, (i <= k < j)%nat -> l !! k = Some s -> x ∉ targets_of s) ->
  ns wj !! x = ns wi !! x.
Proof.
  intros Hij Hi Hj Hfree.
  apply (states_carry (fun w0 => ns w0 !! x = ns wi !! x) l w j i wi wj);
    try done.
  intros k s Hk Hl w0 <-. apply exec_stmt_ns. by apply (Hfree k).
Qed.

Lemma states_elem l w w' :
  w' ∈ states l w -> exists i, states l w !! i = Some w'.
Proof. apply list_elem_of_lookup. Qed.

(** * Reading the final state *)

Ltac final_ns :=
  unfold final, writes; cbn [ns foldl app map seq]; unfold write;
  cbn [fst snd]; look.

Lemma final_scene E method r w :
  ns (final E method r w) !! "plotter" = Some (VPlotter (scene_of E r)).
Proof. final_ns. reflexivity. Qed.

Lemma final_meshes E method r w :
  ns (final E method r w) !! "ct" = Some (VMesh (r_ct r)) /\
  ns (final E method r w) !! "camera" = Some (VMesh (camera_of E r)) /\
  ns (final E method r w) !! "principal_ray" = Some (VMesh (ray_of E r)) /\
  ns (final E method r w) !! "detector" = Some (VMesh (detector_of E r)) /\
  ns (final E method r w) !! "texture" = Some (VTexture (r_image r)).
Proof. repeat split; final_ns; reflexivity. Qed.

Lemma final_translations E method r w :
  ns (final E method r w) !! "translations"
  = Some (VTensor (translation_rows r) (chosen_device E)).
Proof. final_ns. reflexivity. Qed.

Lemma full_trace_length E method : length (full_trace E method) = 18%nat.
Proof. reflexivity. Qed.

(** The library results of a completed run are determined by the
    environment. *)
Lemma completes_unique E method rows r r' :
  completes E method rows r -> completes E method rows r' -> r = r'.
Proof.
  destruct r as [v1 s1 [[a1 b1] c1] m1 R1 [[x1 y1] z1] i1 h1].
  destruct r' as [v2 s2 [[a2 b2] c2] m2 R2 [[x2 y2] z2] i2 h2].
  unfold completes, renderer_of, pose_of, scene_of, camera_of, ray_of,
    detector_of, source_of, renderer_of, pose_of, translation_rows, center_list.
  cbn [r_volume r_spacing r_center r_ct r_rotation r_translation r_image r_html
       fst snd].
  intros (? & ? & ? & ? & ? & ? & ? & ? & ? & ? & ?).
  intros (? & ? & ? & ? & ? & ? & ? & ? & ? & ? & ?).
  unfold ret in *.
  simplify_eq;
  repeat match goal with
         | H1 : ?a = _, H2 : ?a = _ |- _ => rewrite H1 in H2; simplify_eq
         end.
  reflexivity.
Qed.

(** When every library call succeeds and the isocenter has three
    components, the run completes, whatever the state it starts from. *)
Lemma pipeline_completes E method rows r w :
  completes E method rows r ->
  exec (pipeline E method rows) w = Done (final E method r w).
Proof.
  intros Hr. pose proof (pipeline_cases E method rows w) as H.
  destruct (exec _ w) as [w'|e w'].
  - destruct H as (r' & Hr' & ->).
    by rewrite (completes_unique _ _ _ _ _ Hr' Hr).
  - destruct H as (_ & _ & Hno & _). by destruct (Hno r).
Qed.

Lemma demo_completes :
  completes demo "surface_nets" (script_translations demo) demo_results.
Proof. repeat split; reflexivity. Qed.


(** * The claims *)

(** C2. Export comes last: a run that completes has written
    [render.html] from a plotter holding the isosurface mesh, the camera
    frustum, the principal ray and the textured detector plane (and the axes
    and bounding box); a run that raises, at whichever statement, leaves the
    files on disk as they were. *)
Theorem export_after_scene E w :
  match run E w with
  | Done w' =>
      exists ct camera principal_ray detector texture html,
        ns w' !! "ct" = Some (VMesh ct) /\
        ns w' !! "camera" = Some (VMesh camera) /\
        ns w' !! "principal_ray" = Some (VMesh principal_ray) /\
        ns w' !! "detector" = Some (VMesh detector) /\
        ns w' !! "texture" = Some (VTexture texture) /\
        ns w' !! "plotter"
          = Some (VPlotter [AMesh ct plain; AMesh camera camera_opts;
                            AMesh principal_ray ray_opts;
                            AMesh detector (textured texture);
                            AAxes; ABoundingBox]) /\
        to_html E [AMesh ct plain; AMesh camera camera_opts;
                   AMesh principal_ray ray_opts;
                   AMesh detector (textured texture);
                   AAxes; ABoundingBox] = Some html /\
        fs w' = <["render.html" := html]> (fs w)
  | Raised _ w' => fs w' = fs w
  end.
Proof.
  unfold run, notebook.
  pose proof (pipeline_cases E "surface_nets" (script_translations E) w) as H.
  destruct (exec _ w) as [w'|e w'].
  - destruct H as (r & Hr & ->).
    destruct (final_meshes E "surface_nets" r w) as (? & ? & ? & ? & ?).
    exists (r_ct r), (camera_of E r), (ray_of E r), (detector_of E r),
      (r_image r), (r_html r).
    repeat split; try done.
    + apply final_scene.
    + apply Hr.
  - apply H.
Qed.

(** C10. Whatever the environment, the backend, the pose and the files
    already on disk: when no statement raises - every library call succeeds
    and the isocenter has three components - the run completes and has
    written the exported page to [render.html], replacing any earlier file
    of that name; a completed run has written that one file, touched no
    other, and then shown an IFrame of that same [render.html]; a run that
    raises writes nothing. *)
Theorem export_fixed_filename E method rows w :
  (forall r, completes E method rows r ->
     exists w',
       exec (pipeline E method rows) w = Done w' /\
       to_html E (scene_of E r) = Some (r_html r) /\
       fs w' = <["render.html" := r_html r]> (fs w) /\
       fs w' !! "render.html" = Some (r_html r)) /\
  match exec (pipeline E method rows) w with
  | Done w' =>
      exists html,
        fs w' = <["render.html" := html]> (fs w) /\
        fs w' !! "render.html" = Some html /\
        (forall file, file ≠ "render.html" -> fs w' !! file = fs w !! file) /\
        out w' = out w ++ [VIFrame {| src := "render.html"; height := 500;
                                      width := 749 |}] /\
        exists t, trace w' = trace w ++ t ++ [EvExportHtml "render.html";
                                             EvIFrame "render.html"]
  | Raised _ w' => fs w' = fs w /\ forall r, ~ completes E method rows r
  end.
Proof.
  split.
  - intros r Hr. rewrite (pipeline_completes E method rows r w Hr).
    eexists. split; [reflexivity|]. split; [apply Hr|].
    cbn [final fs]. split; [done|apply lookup_insert_eq].
  - pose proof (pipeline_cases E method rows w) as H.
    destruct (exec _ w) as [w'|e w'].
    + destruct H as (r & Hr & ->). exists (r_html r). cbn [final fs out trace].
      split; [done|]. split; [apply lookup_insert_eq|].
      split; [intros file Hf; by apply lookup_insert_ne|].
      split; [done|].
      exists (take 16 (full_trace E method)). reflexivity.
    + split; apply H.
Qed.

(** C4. Two runs of the notebook in which no statement raises - every
    library call succeeds and the isocenter has three components - both
    complete, from whatever kernel states (namespace, files, history), and
    each writes to [render.html] the page its own export returned, nothing
    else deciding the size of the file.  So when the libraries behave in the
    second run as in the first (one environment), or just export the same
    page, the two files are equal, and of equal size. *)
Theorem rerun_same_size E1 E2 w1 w2 r1 r2 :
  completes E1 "surface_nets" (script_translations E1) r1 ->
  completes E2 "surface_nets" (script_translations E2) r2 ->
  exists a b,
    run E1 w1 = Done a /\ run E2 w2 = Done b /\
    fs a !! "render.html" = Some (r_html r1) /\
    fs b !! "render.html" = Some (r_html r2) /\
    output_size a = Some (String.length (r_html r1)) /\
    output_size b = Some (String.length (r_html r2)) /\
    (E1 = E2 \/ r_html r1 = r_html r2 ->
     fs a !! "render.html" = fs b !! "render.html" /\
     output_size a = output_size b).
Proof.
  intros Hr1 Hr2. unfold run, notebook.
  rewrite (pipeline_completes _ _ _ _ w1 Hr1), (pipeline_completes _ _ _ _ w2 Hr2).
  eexists _, _. split; [reflexivity|]. split; [reflexivity|].
  unfold output_size. cbn [final fs]. rewrite !lookup_insert_eq.
  do 4 (split; [done|]).
  intros [Heq | Heq].
  - subst E2. by rewrite (completes_unique _ _ _ _ _ Hr1 Hr2).
  - by rewrite Heq.
Qed.

Lemma stages_full_trace E method : stages (full_trace E method) = script_steps.
Proof. reflexivity. Qed.

Lemma stages_take_full_trace E method k :
  stages (take k (full_trace E method)) `prefix_of` script_steps.
Proof.
  do 19 (destruct k as [|k]; [by eexists|]).
  by eexists.
Qed.

(** The calls of a run are an initial segment of [full_trace]. *)
Lemma run_calls_prefix E w :
  exists t,
    trace (world_of (run E w)) = trace w ++ t /\
    t `prefix_of` full_trace E "surface_nets".
Proof.
  unfold run, notebook.
  pose proof (pipeline_cases E "surface_nets" (script_translations E) w) as H.
  destruct (exec _ w) as [w'|e w'].
  - destruct H as (r & Hr & ->). by exists (full_trace E "surface_nets").
  - destruct H as (_ & _ & _ & k & Hk & Ht & _).
    exists (take k (full_trace E "surface_nets")).
    split; [done|apply prefix_take].
Qed.

(** C5, as the code has it.  Whatever the environment and the starting
    state, the library calls of a run are an initial segment of one fixed
    list of calls, each made once and in the order of the statements, and
    their steps an initial segment of select-device, create-volume,
    select-device, create-renderer, extract-mesh, compute-pose,
    render-projection, build-scene, export, show-page.  When every library
    call succeeds and the isocenter has three components, the run completes
    and makes all the calls; a completed run has made all of them, the steps
    C5 names being exactly its steps other than device selection and the
    showing of the page; a run that raises stopped short, a library call or
    the unpacking of the isocenter having failed.  The device chosen changes an
    argument of three calls, never the sequence. *)
Theorem strictly_sequential E w :
  exists t,
    trace (world_of (run E w)) = trace w ++ t /\
    calls_of_run E w = t /\
    t `prefix_of` full_trace E "surface_nets" /\
    stages t `prefix_of` script_steps /\
    (forall r, completes E "surface_nets" (script_translations E) r ->
       run E w = Done (final E "surface_nets" r w) /\
       t = full_trace E "surface_nets") /\
    match run E w with
    | Done _ =>
        t = full_trace E "surface_nets" /\ stages t = script_steps /\
        List.filter named_step (stages t) = step_sequence /\
        exists r, completes E "surface_nets" (script_translations E) r
    | Raised _ _ =>
        (length t < length (full_trace E "surface_nets"))%nat /\
        forall r, ~ completes E "surface_nets" (script_translations E) r
    end.
Proof.
  unfold calls_of_run, run, notebook.
  pose proof (pipeline_cases E "surface_nets" (script_translations E) w) as H.
  destruct (exec _ w) as [w'|e w'].
  - destruct H as (r & Hr & ->). exists (full_trace E "surface_nets").
    cbn [world_of final trace].
    split; [done|]. split; [by rewrite drop_app_length|].
    split; [done|]. split; [by eexists|].
    split.
    + intros r' Hr'. by rewrite (completes_unique _ _ _ _ _ Hr' Hr).
    + repeat split; try done. by exists r.
  - destruct H as (_ & _ & Hno & k & Hk & Ht & _).
    exists (take k (full_trace E "surface_nets")). cbn [world_of].
    split; [done|]. split; [by rewrite Ht, drop_app_length|].
    split; [apply prefix_take|].
    split; [apply stages_take_full_trace|].
    split.
    + intros r Hr. by destruct (Hno r).
    + split; [|done]. rewrite length_take, full_trace_length. lia.
Qed.

(** C5 as stated fails: where the loader raises, the run stops after the
    first of the seven steps. *)
Lemma stops_where_the_loader_raises : ~ always_all_steps.
Proof.
  intros H. specialize (H demo_no_volume fresh).
  vm_compute in H. discriminate H.
Qed.

(** C1. Modelled from the spec.  With a backend name that is not
    supported, [drr_to_mesh] raises as its first act, and the pipeline
    raises without having rendered a projection, built the scene or written
    a file: its calls stop at [drr_to_mesh] at the latest, and when they get
    that far the exception is the unsupported-backend one.  The notebook's
    own backend name is supported, and a run of the notebook never raises
    that exception. *)
Theorem unsupported_backend_fails_first E method rows w :
  supported method = false ->
  (forall drr threshold verbose,
     drr_to_mesh E drr method threshold verbose
     = MkEval [EvDrrToMesh method] (inl (UnsupportedBackend method))) /\
  (exists e w' t,
     exec (pipeline E method rows) w = Raised e w' /\
     fs w' = fs w /\
     trace w' = trace w ++ t /\
     t `prefix_of` take 6 (full_trace E method) /\
     Forall (fun ev => renders_or_builds ev = false) t /\
     (t = take 6 (full_trace E method) -> e = UnsupportedBackend method)) /\
  supported "surface_nets" = true /\
  (forall w0 e w' m, run E w0 = Raised e w' -> e <> UnsupportedBackend m).
Proof.
  intros Hsup. split; [|split; [|split]].
  - intros drr threshold verbose. unfold drr_to_mesh. rewrite Hsup. reflexivity.
  - pose proof (pipeline_cases E method rows w) as H.
    destruct (exec _ w) as [w'|e w'].
    + destruct H as (r & Hr & _). destruct Hr as (_ & _ & _ & _ & Hs & _).
      congruence.
    + destruct H as (Hfs & _ & _ & k & _ & Ht & Hk & _).
      destruct (Hk Hsup) as [Hle He].
      exists e, w', (take k (full_trace E method)).
      split; [done|]. split; [done|]. split; [done|].
      split; [|split].
      * replace (take k (full_trace E method))
          with (take k (take 6 (full_trace E method))).
        { apply prefix_take. }
        rewrite take_take. f_equal. lia.
      * do 7 (destruct k as [|k]; [cbn; repeat constructor|]). lia.
      * intros Heq. apply He. apply (f_equal length) in Heq.
        rewrite !length_take, full_trace_length in Heq. lia.
  - reflexivity.
  - intros w0 e w' m Hrun ->. unfold run, notebook in Hrun.
    pose proof (pipeline_cases E "surface_nets" (script_translations E) w0) as H.
    rewrite Hrun in H. destruct H as (_ & _ & _ & k & _ & _ & _ & Hm).
    discriminate (Hm m eq_refl).
Qed.

(** C8. Modelled from the spec.  Whenever [img_to_mesh] returns, it
    returns a tuple of exactly four components, in this order: the camera
    frustum mesh, the detector-plane mesh, the rendered projection as
    texture image, and the principal ray; the notebook's four-name
    unpacking therefore succeeds.  It raises only when the renderer does. *)
Theorem img_to_mesh_returns_four E drr pose :
  match value (img_to_mesh E drr pose) with
  | inr v =>
      exists camera detector texture principal_ray,
        v = VTuple [VMesh camera; VMesh detector; VTexture texture;
                    VMesh principal_ray] /\
        detector = detector_plane E drr pose /\
        camera = frustum E (apply_pose pose (fst (detector_frame E drr)))
                   (points detector) /\
        project E drr pose = Some texture /\
        principal_ray = segment E (apply_pose pose (fst (detector_frame E drr)))
                          (points detector) /\
        unpack ["camera"; "detector"; "texture"; "principal_ray"] v
        = inr [VMesh camera; VMesh detector; VTexture texture;
               VMesh principal_ray]
  | inl e => project E drr pose = None /\ e = LibraryError EvRender
  end.
Proof.
  unfold img_to_mesh.
  destruct (project E drr pose) as [img|]; cbn.
  - eexists _, _, img, _. repeat split; reflexivity.
  - done.
Qed.

(** * Poses move the detector *)

Lemma Qc_add_cancel (a t1 t2 : Qc) : a + t1 = a + t2 -> t1 = t2.
Proof.
  intros H. replace t1 with ((a + t1) - a) by ring. rewrite H. ring.
Qed.

Lemma vec_add_cancel (a t1 t2 : Point) : vec_add a t1 = vec_add a t2 -> t1 = t2.
Proof.
  destruct a as [[a1 a2] a3], t1 as [[x1 y1] z1], t2 as [[x2 y2] z2]. cbn.
  intros H.
  pose proof (f_equal (fun p : Point => p.1.1) H) as H1.
  pose proof (f_equal (fun p : Point => p.1.2) H) as H2.
  pose proof (f_equal (fun p : Point => p.2) H) as H3.
  cbn in H1, H2, H3.
  apply Qc_add_cancel in H1, H2, H3. congruence.
Qed.

Lemma apply_pose_differs R t1 t2 x :
  t1 <> t2 ->
  apply_pose {| rotation := R; translation := t1 |} x
  <> apply_pose {| rotation := R; translation := t2 |} x.
Proof.
  unfold apply_pose. cbn. intros Ht H. by apply vec_add_cancel in H.
Qed.

Lemma final_camera_translation E method r w :
  camera_translation (final E method r w) = Some (translation_rows r).
Proof. unfold camera_translation. by rewrite final_translations. Qed.

(** C3. Modelled from the spec.  Two runs of the pipeline in the same
    environment (same volume, spacing, backend and renderer) whose pose
    translations differ: the detector-plane meshes have the same number of
    points and differ at every one of them, so they differ as soon as the
    detector has a point; the isosurface mesh is the same in both runs. *)
Theorem translation_moves_detector_only E method rows1 rows2 wa wb w1 w2 :
  (forall r, snd (detector_frame E r) <> []) ->
  exec (pipeline E method rows1) wa = Done w1 ->
  exec (pipeline E method rows2) wb = Done w2 ->
  camera_translation w1 <> camera_translation w2 ->
  (exists d1 d2,
     ns w1 !! "detector" = Some (VMesh d1) /\
     ns w2 !! "detector" = Some (VMesh d2) /\
     length (points d1) = length (points d2) /\
     (forall i p1 p2,
        points d1 !! i = Some p1 -> points d2 !! i = Some p2 -> p1 <> p2) /\
     points d1 <> points d2) /\
  (exists ct,
     ns w1 !! "ct" = Some (VMesh ct) /\ ns w2 !! "ct" = Some (VMesh ct)).
Proof.
  intros Hdet H1 H2 Htr.
  pose proof (pipeline_cases E method rows1 wa) as C1. rewrite H1 in C1.
  pose proof (pipeline_cases E method rows2 wb) as C2. rewrite H2 in C2.
  destruct C1 as (r1 & Hr1 & ->). destruct C2 as (r2 & Hr2 & ->).
  rewrite !final_camera_translation in Htr.
  destruct (final_meshes E method r1 wa) as (Hct1 & _ & _ & Hd1 & _).
  destruct (final_meshes E method r2 wb) as (Hct2 & _ & _ & Hd2 & _).
  destruct r1 as [v1 s1 [[a1 b1] c1] m1 R1 t1 i1 h1].
  destruct r2 as [v2 s2 [[a2 b2] c2] m2 R2 t2 i2 h2].
  unfold completes, center_list in Hr1, Hr2.
  cbn [r_volume r_spacing r_center r_ct r_rotation r_translation r_image r_html
       fst snd] in *.
  destruct Hr1 as (Ha1 & Hb1 & _ & _ & _ & Hm1 & _ & HR1 & _).
  destruct Hr2 as (Ha2 & Hb2 & _ & _ & _ & Hm2 & _ & HR2 & _).
  rewrite Ha1 in Ha2. injection Ha2 as <- <-.
  rewrite Hm1 in Hm2. injection Hm2 as <-.
  rewrite HR1 in HR2. injection HR2 as <-.
  assert (Ht : t1 <> t2).
  { intros ->. by apply Htr. }
  split; [|by exists m1].
  eexists _, _. split; [exact Hd1|]. split; [exact Hd2|].
  unfold detector_of, detector_plane, renderer_of, pose_of.
  cbn [points r_volume r_spacing r_rotation r_translation].
  remember (snd (detector_frame E _)) as targets eqn:Htargets.
  assert (Hpt : forall i p1 p2,
    map (apply_pose {| rotation := R1; translation := t1 |}) targets !! i = Some p1 ->
    map (apply_pose {| rotation := R1; translation := t2 |}) targets !! i = Some p2 ->
    p1 <> p2).
  { intros i p1 p2. rewrite !list_lookup_fmap.
    destruct (targets !! i) as [x|]; cbn; [|done].
    intros [= <-] [= <-]. by apply apply_pose_differs. }
  split; [by rewrite !length_map|]. split; [exact Hpt|].
  intros Heq.
  destruct targets as [|x targets].
  { symmetry in Htargets. by apply (Hdet _) in Htargets. }
  apply (Hpt 0%nat (apply_pose {| rotation := R1; translation := t1 |} x)
             (apply_pose {| rotation := R1; translation := t2 |} x));
    [done|done|].
  cbn in Heq. congruence.
Qed.

Lemma final_focal_len E method r w :
  ns (final E method r w) !! "focal_len" = Some (VFloat focal_len_value).
Proof. final_ns. reflexivity. Qed.

Lemma final_pose E method r w :
  ns (final E method r w) !! "pose" = Some (VPose (pose_of r)).
Proof. final_ns. reflexivity. Qed.

Lemma isocenter_3d E volume spacing sx sy sz px py pz c :
  shape volume = [sx; sy; sz] -> spacing = [px; py; pz] ->
  value (isocenter E volume spacing) = inr c ->
  c = [torch_div E (torch_mul E sx px) 2; torch_div E (torch_mul E sy py) 2;
       torch_div E (torch_mul E sz pz) 2].
Proof.
  intros Hs -> H. unfold isocenter, tensor_mul in H. rewrite Hs in H.
  cbn in H. congruence.
Qed.

(** What a completed run of the notebook binds to [translations]. *)
Lemma run_translation E w a :
  run E w = Done a ->
  exists volume spacing bx by_ bz,
    example_ct E = Some (volume, spacing) /\
    value (isocenter E volume spacing) = inr [bx; by_; bz] /\
    ns a !! "focal_len" = Some (VFloat focal_len_value) /\
    ns a !! "translations"
      = Some (VTensor [[torch_sub E bx (focal_len_value / Z2Qc 3); by_; bz]]
                (chosen_device E)) /\
    (exists p, ns a !! "pose" = Some (VPose p) /\
               translation p = (torch_sub E bx (focal_len_value / Z2Qc 3), by_, bz)).
Proof.
  unfold run, notebook. intros Hrun.
  pose proof (pipeline_cases E "surface_nets" (script_translations E) w) as H.
  rewrite Hrun in H. destruct H as (r & Hr & ->).
  pose proof (final_translations E "surface_nets" r w) as Ht.
  pose proof (final_pose E "surface_nets" r w) as Hp.
  destruct r as [v1 s1 [[bx by_] bz] m1 R1 [[tx ty] tz] i1 h1].
  unfold completes, center_list, translation_rows, script_translations, pose_of in *.
  cbn [r_volume r_spacing r_center r_ct r_rotation r_translation r_image r_html
       fst snd] in *.
  destruct Hr as (Hct & Hiso & _ & _ & _ & _ & Hrows & _).
  exists v1, s1, bx, by_, bz.
  split; [done|]. split; [by rewrite Hiso|].
  split; [apply final_focal_len|].
  rewrite Hrows. split; [done|].
  eexists. split; [exact Hp|]. cbn. congruence.
Qed.

(** Two completed runs whose loaded volumes have the same isocenter, the
    subtraction being the same in both, have the same translation. *)
Lemma same_isocenter_same_translation E w a E' w' b :
  run E w = Done a -> run E' w' = Done b ->
  (forall x y, torch_sub E' x y = torch_sub E x y) ->
  loaded_isocenter E = loaded_isocenter E' ->
  camera_translation a = camera_translation b.
Proof.
  intros Ha Hb Hsub.
  destruct (run_translation E w a Ha)
    as (v & s & bx & by_ & bz & Hct & Hiso & Hf & Ht & Hp).
  destruct (run_translation E' w' b Hb)
    as (v' & s' & bx' & by' & bz' & Hct' & Hiso' & _ & Ht' & _).
  unfold camera_translation, loaded_isocenter.
  rewrite Ht, Ht', Hct, Hct'. cbn [fmap option_fmap option_map fst snd].
  rewrite Hiso, Hiso', Hsub. intros H.
  pose proof (f_equal (fun o => match o with
                | Some (inr [x; y; z]) => (x, y, z)
                | _ => (bx, by_, bz) end) H) as H'.
  cbn in H'.
  pose proof (f_equal (fun p : Point => p.1.1) H') as H1.
  pose proof (f_equal (fun p : Point => p.1.2) H') as H2.
  pose proof (f_equal (fun p : Point => p.2) H') as H3.
  cbn in H1, H2, H3. by subst.
Qed.

(** C9, as the code has it.  The translation of a completed run is
    [(bx - focal_len / 3, by, bz)] with [focal_len = 1020] and
    [(bx, by, bz) = shape * spacing / 2] computed from the loaded volume, in
    torch's arithmetic; it is the translation of the pose; and it depends on
    the volume through the isocenter only: a second completed run, on a
    volume of whatever shape and spacing with the same isocenter, has the
    same translation. *)
Theorem translation_from_isocenter E w a :
  run E w = Done a ->
  (exists volume spacing bx by_ bz,
     example_ct E = Some (volume, spacing) /\
     value (isocenter E volume spacing) = inr [bx; by_; bz] /\
     focal_len_value = Z2Qc 1020 /\
     ns a !! "focal_len" = Some (VFloat focal_len_value) /\
     ns a !! "translations"
       = Some (VTensor [[torch_sub E bx (focal_len_value / Z2Qc 3); by_; bz]]
                 (chosen_device E)) /\
     (exists p, ns a !! "pose" = Some (VPose p) /\
                translation p
                = (torch_sub E bx (focal_len_value / Z2Qc 3), by_, bz)) /\
     (forall sx sy sz px py pz,
        shape volume = [sx; sy; sz] -> spacing = [px; py; pz] ->
        [bx; by_; bz] = [torch_div E (torch_mul E sx px) 2;
                         torch_div E (torch_mul E sy py) 2;
                         torch_div E (torch_mul E sz pz) 2])) /\
  (forall E' w' b,
     run E' w' = Done b ->
     (forall x y, torch_sub E' x y = torch_sub E x y) ->
     loaded_isocenter E = loaded_isocenter E' ->
     camera_translation a = camera_translation b).
Proof.
  intros Ha. split.
  - destruct (run_translation E w a Ha)
      as (v & s & bx & by_ & bz & Hct & Hiso & Hf & Ht & Hp).
    exists v, s, bx, by_, bz. repeat split; try done.
    intros sx sy sz px py pz Hs Hsp. by eapply isocenter_3d.
  - intros E' w' b Hb. by eapply same_isocenter_same_translation.
Qed.

(** C9 as stated fails: two voxels of size 1 and one voxel of size 2 along
    the first axis are different shapes and spacings with one isocenter,
    hence one camera translation. *)
Lemma rescaled_volume_same_translation : ~ translation_tracks_volume.
Proof.
  intros H.
  destruct (run demo_two_voxels fresh) as [a|e a] eqn:Ha;
    [|vm_compute in Ha; discriminate Ha].
  destruct (run demo_one_voxel fresh) as [b|e b] eqn:Hb;
    [|vm_compute in Hb; discriminate Hb].
  apply (H demo_two_voxels demo_one_voxel fresh fresh a b Ha Hb).
  - left. cbn. discriminate.
  - apply (same_isocenter_same_translation _ _ _ _ _ _ Ha Hb); reflexivity.
Qed.

(** * The device *)

Ltac not_in_list :=
  let H := fresh in
  intros H;
  repeat (apply elem_of_cons in H as [H|H]; [discriminate H|]);
  by apply elem_of_nil in H.

Lemma full_trace_placement E method t1 d tl :
  full_trace E method = t1 ++ EvTo d :: tl ->
  d = chosen_device E /\ tl = drop 5 (full_trace E method).
Proof.
  unfold full_trace. intros H.
  do 18 (destruct t1 as [|? t1]; [by simplify_eq/=|];
         cbn in H; injection H as <- H).
  by destruct t1.
Qed.

Lemma setup_renderer E w :
  match exec (cell_setup E) w with
  | Done w1 =>
      exists r, ns w1 !! "drr" = Some (VRenderer r) /\
                drr_device r = chosen_device E
  | Raised _ _ => True
  end.
Proof.
  destruct w as [m f t o]. unfold cell_setup. go.
  destruct (example_ct E) as [[vol sp]|] eqn:Hct; go; [|done].
  destruct (isocenter E vol sp) as [cs [e|c]] eqn:Hiso; go; [done|].
  destruct c as [|bx [|by_ [|bz [|]]]]; go; try done.
  destruct (drr_accepts E vol sp _ _ _) eqn:Hacc; go; [|done].
  destruct (device_usable E _) eqn:Hdev; go; [|done].
  eexists. split; reflexivity.
Qed.

(** C6.  The module is placed on a device by one call, [to], with the
    device selected at setup; every call made after it neither places nor
    selects a device; and once the setup cell has run, the renderer bound to
    [drr] - the one on the selected device - is the same in every later
    state of the run. *)
Theorem device_placed_once E w :
  (exists t,
     trace (world_of (run E w)) = trace w ++ t /\
     forall t1 d t2, t = t1 ++ EvTo d :: t2 ->
       d = chosen_device E /\ (EvTo d ∉ t1) /\
       Forall (fun ev => is_device_event ev = false) t2) /\
  match exec (cell_setup E) w with
  | Done w1 =>
      exists r,
        ns w1 !! "drr" = Some (VRenderer r) /\
        drr_device r = chosen_device E /\
        forall w',
          w' ∈ states (cell_scene E "surface_nets" (script_translations E)
                       ++ cell_display) w1 ->
          ns w' !! "drr" = Some (VRenderer r)
  | Raised _ _ => True
  end.
Proof.
  split.
  - destruct (run_calls_prefix E w) as (t & Ht & [rest Hfull]).
    exists t. split; [done|]. intros t1 d t2 ->.
    rewrite <- !app_assoc in Hfull. cbn [app] in Hfull.
    destruct (full_trace_placement _ _ _ _ _ Hfull) as [-> Htl].
    split; [done|]. split.
    + intros Hin. apply list_elem_of_split in Hin as (l1 & l2 & ->).
      rewrite <- !app_assoc in Hfull. cbn [app] in Hfull.
      destruct (full_trace_placement _ _ _ _ _ Hfull) as [_ Htl'].
      rewrite <- Htl in Htl'. apply (f_equal length) in Htl'.
      rewrite length_app in Htl'. cbn [length] in Htl'. lia.
    + assert (Hall : Forall (fun ev => is_device_event ev = false)
                       (drop 5 (full_trace E "surface_nets"))).
      { cbn. repeat constructor. }
      rewrite <- Htl in Hall. by apply Forall_app in Hall as [? _].
  - pose proof (setup_renderer E w) as H.
    destruct (exec (cell_setup E) w) as [w1|]; [|done].
    destruct H as (r & Hr & Hd). exists r. split; [done|]. split; [done|].
    intros w' Hw'. apply states_elem in Hw' as [j Hj]. rewrite <- Hr.
    eapply (states_stable _ w1 "drr" 0%nat j); [lia|apply states_head|done|].
    intros k s _ Hk. revert k s Hk. apply Forall_lookup.
    unfold cell_scene, cell_display. cbn [app].
    repeat constructor; cbn [targets_of]; not_in_list.
Qed.

(** * Names are bound once *)

(** The names each statement of the notebook binds, statement by
    statement. *)
Lemma notebook_targets E :
  map targets_of (notebook E)
  = [["device"]; ["volume"; "spacing"]; ["bx"; "by"; "bz"]; ["focal_len"];
     ["device"]; ["drr"]; ["ct"]; ["rotations"]; ["translations"]; ["pose"];
     ["camera"; "detector"; "texture"; "principal_ray"]; ["plotter"];
     ["plotter"]; ["plotter"]; ["plotter"]; ["plotter"]; ["plotter"];
     ["plotter"]; []; []].
Proof. reflexivity. Qed.

(** Only [device] and [plotter] are targets of more than one statement. *)
Lemma notebook_targets_once E k k' s s' x :
  notebook E !! k = Some s -> notebook E !! k' = Some s' -> (k < k')%nat ->
  x ∈ targets_of s -> x ∈ targets_of s' -> x = "device" \/ x = "plotter".
Proof.
  intros Hk Hk' Hlt Hx Hx'.
  assert (Hall : Forall (fun ka : nat * list string =>
            Forall (fun kb : nat * list string =>
              (ka.1 < kb.1)%nat ->
              Forall (fun y => y ∈ kb.2 -> y = "device" \/ y = "plotter") ka.2)
              (imap pair (map targets_of (notebook E))))
            (imap pair (map targets_of (notebook E)))).
  { rewrite notebook_targets. apply (bool_decide_unpack _). by vm_compute. }
  assert (Hin : forall i s0, notebook E !! i = Some s0 ->
            (i, targets_of s0) ∈ imap pair (map targets_of (notebook E))).
  { intros i s0 Hi. apply elem_of_lookup_imap. exists i, (targets_of s0).
    split; [done|]. by rewrite list_lookup_fmap, Hi. }
  rewrite Forall_forall in Hall. specialize (Hall _ (Hin _ _ Hk)).
  rewrite Forall_forall in Hall. specialize (Hall _ (Hin _ _ Hk') Hlt).
  rewrite Forall_forall in Hall. by apply Hall.
Qed.

(** Every statement keeps [device] at the selected device. *)
Lemma notebook_keeps_device E (P : option PyVal -> Prop) :
  P (Some (VDevice (chosen_device E))) ->
  Forall (fun s => forall w0, P (ns w0 !! "device") ->
                   P (ns (world_of (exec_stmt s w0)) !! "device"))
    (notebook E).
Proof.
  intros HP. unfold notebook, pipeline, cell_setup, cell_scene, cell_display.
  cbn [app].
  repeat apply List.Forall_cons; try apply List.Forall_nil; intros w0 Hw0;
    first [ rewrite exec_stmt_ns by (cbn [targets_of]; not_in_list); exact Hw0
          | cbn; by rewrite lookup_insert_eq ].
Qed.

Lemma persists_notebook E w :
  ns w = ∅ -> persists ["plotter"] (notebook E) w.
Proof.
  intros Hfresh i j wi wj x v Hij Hi Hj Hx Hv.
  assert (Hx' : x <> "plotter") by (intros ->; apply Hx; by left).
  destruct (decide (x = "device")) as [->|Hdev].
  - assert (v = VDevice (chosen_device E)) as ->.
    { assert (Hc : forall v0, ns wi !! "device" = Some v0 ->
                              v0 = VDevice (chosen_device E)); [|by apply Hc].
      apply (states_carry
        (fun w0 => forall v0, ns w0 !! "device" = Some v0 ->
                              v0 = VDevice (chosen_device E))
        (notebook E) w i 0%nat w wi);
        [lia|apply states_head|exact Hi| |by rewrite Hfresh].
      intros k s _ Hk.
      pose proof (notebook_keeps_device E
        (fun o => forall v0, o = Some v0 -> v0 = VDevice (chosen_device E))) as Hall.
      rewrite Forall_lookup in Hall. apply (Hall ltac:(congruence) k s Hk). }
    apply (states_carry
        (fun w0 => ns w0 !! "device" = Some (VDevice (chosen_device E)))
        (notebook E) w j i wi wj); [exact Hij|exact Hi|exact Hj| |exact Hv].
    intros k s _ Hk.
    pose proof (notebook_keeps_device E
      (fun o => o = Some (VDevice (chosen_device E))) eq_refl) as Hall.
    rewrite Forall_lookup in Hall. apply (Hall k s Hk).
  - rewrite <- Hv.
    apply (states_stable (notebook E) w x i j wi wj); try done.
    intros k' s' Hk' Hs' Hin'.
    destruct (decide (Exists (fun s => x ∈ targets_of s) (take i (notebook E))))
      as [Hex|Hnex].
    + apply Exists_exists in Hex as (s & Hs & Hin).
      apply list_elem_of_lookup in Hs as [k Hk].
      apply lookup_take_Some in Hk as [Hk Hlt].
      destruct (notebook_targets_once E k k' s s' x) as [?|?]; try done. lia.
    + apply not_Exists_Forall in Hnex; [|intros s; apply _].
      assert (ns wi !! x = ns w !! x) as Hsame.
      { apply (states_stable (notebook E) w x 0%nat i w wi);
          [lia|apply states_head|done|].
        intros k s Hk Hs. rewrite Forall_lookup in Hnex.
        apply (Hnex k s). apply lookup_take_Some. split; [done|lia]. }
      rewrite Hsame, Hfresh, lookup_empty in Hv. done.
Qed.

Lemma scene_grows E :
  Forall (fun s => forall w0,
            grows (ns w0 !! "plotter") (ns (world_of (exec_stmt s w0)) !! "plotter"))
    (drop 12 (notebook E)).
Proof.
  unfold notebook, pipeline, cell_setup, cell_scene, cell_display.
  cbn [app drop].
  repeat apply List.Forall_cons; try apply List.Forall_nil;
    intros w0 scene Hp;
    try (rewrite exec_stmt_ns by (cbn [targets_of]; not_in_list); by left);
    cbn [exec_stmt]; rewrite Hp; unfold read, name, add_actor;
    repeat match goal with
           | |- context [ns w0 !! ?x] =>
               lazymatch x with
               | "plotter" => fail
               | _ => destruct (ns w0 !! x) as [[]|]
               end
           end;
    cbn; try (by left);
    (match goal with
     | |- context [can_add E ?a ?b] => destruct (can_add E a b)
     end;
     cbn; [right; eexists; apply lookup_insert_eq | by left]).
Qed.

Lemma plotter_unbound E w i wi :
  ns w = ∅ -> (i <= 11)%nat -> states (notebook E) w !! i = Some wi ->
  ns wi !! "plotter" = None.
Proof.
  intros Hfresh Hi Hwi.
  rewrite (states_stable (notebook E) w "plotter" 0%nat i w wi);
    [by rewrite Hfresh|lia|apply states_head|done|].
  intros k s Hk Hs.
  assert (Hall : Forall (fun s => "plotter" ∉ targets_of s) (take 11 (notebook E))).
  { unfold notebook, pipeline, cell_setup, cell_scene, cell_display.
    cbn [app take]. repeat constructor; cbn [targets_of]; not_in_list. }
  rewrite Forall_lookup in Hall. apply (Hall k s).
  apply lookup_take_Some. split; [done|lia].
Qed.

Lemma plotter_grows E w i wi wj :
  ns w = ∅ ->
  states (notebook E) w !! i = Some wi ->
  states (notebook E) w !! S i = Some wj ->
  grows (ns wi !! "plotter") (ns wj !! "plotter").
Proof.
  intros Hfresh Hi Hj scene Hp.
  destruct (states_step _ _ _ _ Hj) as (s & wi' & Hs & Hi' & ->).
  rewrite Hi in Hi'. injection Hi' as <-.
  destruct (decide (i <= 11)%nat) as [Hle|Hgt].
  { rewrite (plotter_unbound E w i wi Hfresh Hle Hi) in Hp. discriminate Hp. }
  pose proof (scene_grows E) as Hall. rewrite Forall_lookup in Hall.
  apply (Hall (i - 12)%nat s); [|done].
  rewrite lookup_drop. rewrite <- Hs. f_equal. lia.
Qed.

(** C7, as the code has it.  In a fresh kernel every name other than
    [plotter] keeps the value of its first binding through all later states
    of the run ([device] is assigned twice, to the same value); the plotter,
    once created, is kept or extended by one actor at each statement; and
    from any kernel state the statements after the load leave [volume] and
    [spacing] as the load bound them. *)
Theorem bindings_persist E w :
  ns w = ∅ ->
  persists ["plotter"] (notebook E) w /\
  (forall i wi wj,
     states (notebook E) w !! i = Some wi ->
     states (notebook E) w !! S i = Some wj ->
     grows (ns wi !! "plotter") (ns wj !! "plotter")) /\
  (forall w0 w1 w',
     exec (take 2 (notebook E)) w0 = Done w1 ->
     w' ∈ states (drop 2 (notebook E)) w1 ->
     ns w' !! "volume" = ns w1 !! "volume" /\
     ns w' !! "spacing" = ns w1 !! "spacing").
Proof.
  intros Hfresh. split; [by apply persists_notebook|].
  split; [intros i wi wj; by apply plotter_grows|].
  intros w0 w1 w' _ Hw'. apply states_elem in Hw' as [j Hj].
  assert (Hfree : forall x, x = "volume" \/ x = "spacing" ->
            forall k s, drop 2 (notebook E) !! k = Some s -> x ∉ targets_of s).
  { intros x Hx. apply Forall_lookup.
    unfold notebook, pipeline, cell_setup, cell_scene, cell_display.
    cbn [app drop].
    destruct Hx as [-> | ->];
      repeat constructor; cbn [targets_of]; not_in_list. }
  split.
  - eapply (states_stable _ w1 "volume" 0%nat j); [lia|apply states_head|done|].
    intros k s _. apply Hfree. by left.
  - eapply (states_stable _ w1 "spacing" 0%nat j); [lia|apply states_head|done|].
    intros k s _. apply Hfree. by right.
Qed.

(** C7 as stated fails on the plotter: [plotter.add_mesh(ct)] changes the
    object that [plotter = pyvista.Plotter()] created. *)
Lemma plotter_is_rewritten : ~ persists [] (notebook demo) fresh.
Proof.
  intros H.
  assert (H12 : exists w12, states (notebook demo) fresh !! 12%nat = Some w12 /\
                            ns w12 !! "plotter" = Some (VPlotter [])).
  { eexists. split; [vm_compute; reflexivity|]. vm_compute. reflexivity. }
  destruct H12 as (w12 & Hw12 & Hp12).
  assert (H13 : exists w13 a, states (notebook demo) fresh !! 13%nat = Some w13 /\
                            ns w13 !! "plotter" = Some (VPlotter [a])).
  { eexists _, _. split; [vm_compute; reflexivity|]. vm_compute. reflexivity. }
  destruct H13 as (w13 & a & Hw13 & Hp13).
  specialize (H 12%nat 13%nat w12 w13 "plotter" (VPlotter [])
                ltac:(lia) Hw12 Hw13 ltac:(apply not_elem_of_nil) Hp12).
  rewrite Hp13 in H. discriminate H.
Qed.

(** * The theorems at work on the concrete environment *)

Lemma unsupported_backend_witness :
  supported "flying_edges" = false /\
  exists e w' t,
    exec (pipeline demo "flying_edges" (script_translations demo)) fresh = Raised e w' /\
    fs w' = fs fresh /\
    trace w' = trace fresh ++ t /\
    t `prefix_of` take 6 (full_trace demo "flying_edges") /\
    Forall (fun ev => renders_or_builds ev = false) t /\
    (t = take 6 (full_trace demo "flying_edges") ->
     e = UnsupportedBackend "flying_edges").
Proof.
  split; [reflexivity|].
  apply (unsupported_backend_fails_first demo "flying_edges"
           (script_translations demo) fresh).
  reflexivity.
Defined.

Lemma translation_moves_detector_witness :
  let w1 := world_of (exec (pipeline demo "surface_nets" (script_translations demo)) fresh) in
  let w2 := world_of (exec (pipeline demo "surface_nets"
                              (fun bx _ by_ bz => [[bx; by_; bz]])) fresh) in
  camera_translation w1 <> camera_translation w2 /\
  (exists d1 d2,
     ns w1 !! "detector" = Some (VMesh d1) /\
     ns w2 !! "detector" = Some (VMesh d2) /\
     length (points d1) = length (points d2) /\
     (forall i p1 p2,
        points d1 !! i = Some p1 -> points d2 !! i = Some p2 -> p1 <> p2) /\
     points d1 <> points d2) /\
  (exists ct,
     ns w1 !! "ct" = Some (VMesh ct) /\ ns w2 !! "ct" = Some (VMesh ct)).
Proof.
  intros w1 w2.
  assert (Hne : camera_translation w1 <> camera_translation w2).
  { vm_compute. intros H. discriminate H. }
  split; [exact Hne|].
  apply (translation_moves_detector_only demo "surface_nets" (script_translations demo)
           (fun bx _ by_ bz => [[bx; by_; bz]]) fresh fresh w1 w2).
  - intros r. discriminate.
  - vm_compute. reflexivity.
  - vm_compute. reflexivity.
  - exact Hne.
Defined.

Lemma bindings_persist_witness :
  ns fresh = ∅ /\ persists ["plotter"] (notebook demo) fresh.
Proof.
  split; [reflexivity|].
  apply (proj1 (bindings_persist demo fresh eq_refl)).
Defined.

Lemma translation_from_isocenter_witness :
  let a := world_of (run demo_two_voxels fresh) in
  let b := world_of (run demo_one_voxel fresh) in
  run demo_two_voxels fresh = Done a /\
  run demo_one_voxel fresh = Done b /\
  loaded_shape demo_two_voxels <> loaded_shape demo_one_voxel /\
  loaded_isocenter demo_two_voxels = loaded_isocenter demo_one_voxel /\
  camera_translation a = camera_translation b.
Proof.
  intros a b.
  assert (Ha : run demo_two_voxels fresh = Done a) by (vm_compute; reflexivity).
  assert (Hb : run demo_one_voxel fresh = Done b) by (vm_compute; reflexivity).
  assert (Hiso : loaded_isocenter demo_two_voxels = loaded_isocenter demo_one_voxel)
    by reflexivity.
  split; [exact Ha|]. split; [exact Hb|].
  split; [cbn; discriminate|]. split; [exact Hiso|].
  destruct (translation_from_isocenter demo_two_voxels fresh a Ha) as [_ Hsame].
  exact (Hsame demo_one_voxel fresh b Hb (fun _ _ => eq_refl) Hiso).
Defined.

Lemma export_fixed_filename_witness :
  completes demo "surface_nets" (script_translations demo) demo_results /\
  fs used_kernel !! "render.html" = Some "an older page" /\
  exists w',
    exec (pipeline demo "surface_nets" (script_translations demo)) used_kernel
    = Done w' /\
    to_html demo (scene_of demo demo_results) = Some (r_html demo_results) /\
    fs w' = <["render.html" := r_html demo_results]> (fs used_kernel) /\
    fs w' !! "render.html" = Some (r_html demo_results).
Proof.
  split; [exact demo_completes|]. split; [vm_compute; reflexivity|].
  destruct (export_fixed_filename demo "surface_nets" (script_translations demo)
              used_kernel) as [Hlive _].
  exact (Hlive demo_results demo_completes).
Defined.

Lemma rerun_same_size_witness :
  completes demo "surface_nets" (script_translations demo) demo_results /\
  exists a b,
    run demo fresh = Done a /\ run demo used_kernel = Done b /\
    fs a !! "render.html" = Some (r_html demo_results) /\
    fs b !! "render.html" = Some (r_html demo_results) /\
    output_size a = Some (String.length (r_html demo_results)) /\
    output_size b = Some (String.length (r_html demo_results)) /\
    (demo = demo \/ r_html demo_results = r_html demo_results ->
     fs a !! "render.html" = fs b !! "render.html" /\
     output_size a = output_size b).
Proof.
  split; [exact demo_completes|].
  exact (rerun_same_size demo demo fresh used_kernel demo_results demo_results
           demo_completes demo_completes).
Defined.

Lemma strictly_sequential_witness :
  completes demo "surface_nets" (script_translations demo) demo_results /\
  exists t,
    trace (world_of (run demo fresh)) = trace fresh ++ t /\
    run demo fresh = Done (final demo "surface_nets" demo_results fresh) /\
    t = full_trace demo "surface_nets".
Proof.
  split; [exact demo_completes|].
  destruct (strictly_sequential demo fresh) as (t & Ht & _ & _ & _ & Hlive & _).
  exists t. split; [exact Ht|]. exact (Hlive demo_results demo_completes).
Defined.

(** * More on runs *)

Lemma exec_app l1 : forall l2 w,
  exec (l1 ++ l2) w
  = match exec l1 w with
    | Done w1 => exec l2 w1
    | Raised e w1 => Raised e w1
    end.
Proof.
  induction l1 as [|s l1 IH]; intros l2 w; cbn [app exec]; [done|].
  destruct (exec_stmt s w); [apply IH|done].
Qed.

(** State [i] of a run is where the first [i] statements leave the
    kernel. *)
Lemma states_exec l : forall w i wi,
  states l w !! i = Some wi -> wi = world_of (exec (take i l) w).
Proof.
  induction l as [|s l IH]; intros w i wi H.
  - destruct i as [|i]; cbn in H; [by injection H as <-|done].
  - destruct i as [|i]; cbn in H; [by injection H as <-|].
    cbn [take exec]. destruct (exec_stmt s w) as [w1|e w1].
    + by apply IH.
    + destruct i; cbn in H; [by injection H as <-|done].
Qed.

Lemma states_before_end l : forall w, (length (states l w) <= S (length l))%nat.
Proof.
  induction l as [|s l IH]; intros w; cbn; [lia|].
  destruct (exec_stmt s w) as [w1|e w1]; cbn; [|lia].
  specialize (IH w1). lia.
Qed.

Lemma exec_stmt_fs s w :
  writes_file s = false -> fs (world_of (exec_stmt s w)) = fs w.
Proof.
  destruct s as [ts rhs|obj method|file rhs|rhs]; cbn; intros Hs; try done.
  - destruct (value (rhs (ns w))) as [e|v]; [done|].
    by destruct (unpack ts v).
  - destruct (ns w !! obj) as [self|]; [|done].
    by destruct (value (method (ns w) self)).
  - by destruct (value (rhs (ns w))).
Qed.

Lemma exec_stmt_out s w :
  shows s = false -> out (world_of (exec_stmt s w)) = out w.
Proof.
  destruct s as [ts rhs|obj method|file rhs|rhs]; cbn; intros Hs; try done.
  - destruct (value (rhs (ns w))) as [e|v]; [done|].
    by destruct (unpack ts v).
  - destruct (ns w !! obj) as [self|]; [|done].
    by destruct (value (method (ns w) self)).
  - by destruct (value (rhs (ns w))).
Qed.

Lemma exec_fs l : forall w,
  forallb (fun s => negb (writes_file s)) l = true ->
  fs (world_of (exec l w)) = fs w.
Proof.
  induction l as [|s l IH]; intros w H; cbn in *; [done|].
  apply andb_prop in H as [Hs Hl]. apply negb_true_iff in Hs.
  pose proof (exec_stmt_fs s w Hs) as Hfs.
  destruct (exec_stmt s w) as [w1|e w1]; cbn in *; [|done].
  by rewrite IH.
Qed.

Lemma exec_out l : forall w,
  forallb (fun s => negb (shows s)) l = true ->
  out (world_of (exec l w)) = out w.
Proof.
  induction l as [|s l IH]; intros w H; cbn in *; [done|].
  apply andb_prop in H as [Hs Hl]. apply negb_true_iff in Hs.
  pose proof (exec_stmt_out s w Hs) as Hout.
  destruct (exec_stmt s w) as [w1|e w1]; cbn in *; [|done].
  by rewrite IH.
Qed.

Lemma pipeline_length E method rows : length (pipeline E method rows) = 20%nat.
Proof. reflexivity. Qed.

(** The branch where a call has just raised, for the exception alone. *)
Ltac surfaced := first [ exact I | intros ?; discriminate ].

Lemma pipeline_raises E method rows w :
  match exec (pipeline E method rows) w with
  | Raised e _ => forall x, e <> NameError x
  | Done _ => True
  end.
Proof.
  destruct w as [m f t o].
  unfold pipeline, cell_setup, cell_scene, cell_display.
  go.
  destruct (example_ct E) as [[vol sp]|] eqn:Hct; go; [|surfaced].
  pose proof (isocenter_calls E vol sp) as Hc.
  pose proof (isocenter_raises E vol sp) as He.
  destruct (isocenter E vol sp) as [cs [e0|c]] eqn:Hiso; cbn [calls value] in Hc, He;
    subst cs; go; [destruct (He e0 eq_refl) as [-> _]; surfaced|clear He].
  destruct c as [|bx [|by_ [|bz [|]]]]; go; try surfaced.
  destruct (drr_accepts E vol sp _ _ _) eqn:Hacc; go; [|surfaced].
  destruct (device_usable E _) eqn:Hdev; go; [|surfaced].
  destruct (supported method) eqn:Hsup; go; [|surfaced].
  destruct (isosurface E method _ _ _) as [ct|] eqn:Hmesh; go; [|surfaced].
  match goal with |- context [rows ?a ?b ?c ?d] =>
    destruct (rows a b c d) as [|[|tx [|ty [|tz [|]]]] [|]] eqn:Hrows end; go;
    try surfaced.
  match goal with |- context [rotation_matrix E ?a ?b ?c] =>
    destruct (rotation_matrix E a b c) as [R|] eqn:Hrot end; go; [|surfaced].
  match goal with |- context [project E ?a ?b] =>
    destruct (project E a b) as [img|] eqn:Himg end; go; [|surfaced].
  do 6 (match goal with |- context [can_add E ?a ?b] =>
    destruct (can_add E a b) eqn:? end; go; [|surfaced]).
  match goal with |- context [to_html E ?a] =>
    destruct (to_html E a) as [html|] eqn:Hhtml end; go; [|surfaced].
  surfaced.
Qed.

(** The statements after the imports read no name before it is bound. *)
Lemma pipeline_no_name_error E method rows w e w' :
  exec (pipeline E method rows) w = Raised e w' -> forall x, e <> NameError x.
Proof.
  intros H. pose proof (pipeline_raises E method rows w) as Hr.
  by rewrite H in Hr.
Qed.

(** X3. When [volume.shape * spacing / 2] does not have exactly three
    components, the run raises at the isocenter line, with the exception of
    the library or of the interpreter: torch's [RuntimeError] when the sizes
    of shape and spacing differ and neither is one, Python's [ValueError] of
    an unpacking with not enough values when the product has fewer than
    three components, and the one with too many when it has more.  The
    loader is the last call made, [volume] and [spacing] are bound, no
    renderer is created, [drr] is left as it was and no file is written. *)
Theorem isocenter_needs_three_axes E method rows w volume spacing :
  example_ct E = Some (volume, spacing) ->
  (forall bx by_ bz, value (isocenter E volume spacing) <> inr [bx; by_; bz]) ->
  exists e w',
    exec (pipeline E method rows) w = Raised e w' /\
    ((e = RuntimeError (size_mismatch (length (shape volume)) (length spacing)) /\
      length (shape volume) <> length spacing /\
      length (shape volume) <> 1%nat /\ length spacing <> 1%nat) \/
     (exists c, value (isocenter E volume spacing) = inr c /\
                (length c < 3)%nat /\
                e = ValueError (not_enough_values 3 (length c))) \/
     (exists c, value (isocenter E volume spacing) = inr c /\
                (3 < length c)%nat /\
                e = ValueError (too_many_values 3))) /\
    trace w' = trace w ++ [EvDevice (chosen_device E); EvLoadCT] /\
    ns w' !! "volume" = Some (VVolume volume) /\
    ns w' !! "spacing" = Some (VArray spacing) /\
    ns w' !! "drr" = ns w !! "drr" /\
    fs w' = fs w.
Proof.
  intros Hct Hiso. destruct w as [m f t o].
  unfold pipeline, cell_setup, cell_scene, cell_display.
  go. rewrite Hct. go.
  pose proof (isocenter_calls E volume spacing) as Hc.
  pose proof (isocenter_raises E volume spacing) as He.
  destruct (isocenter E volume spacing) as [cs [e|c]] eqn:Hv;
    cbn [calls value] in Hc, He, Hiso; subst cs; go.
  { destruct (He e eq_refl) as (-> & Hne). eexists _, _. split; [reflexivity|].
    cbn [ns fs trace]. rewrite <- ?app_assoc. cbn [app]. look.
    split; [by left|]. repeat split; auto. }
  clear He.
  destruct c as [|bx [|by_ [|bz [|q c]]]];
    try (exfalso; by eapply Hiso); go;
    (eexists _, _; split; [reflexivity|];
     cbn [ns fs trace]; rewrite <- ?app_assoc; cbn [app]; look;
     split; [right|repeat split; auto]).
  - left. exists []. repeat split; cbn; lia.
  - left. exists [bx]. repeat split; cbn; lia.
  - left. exists [bx; by_]. repeat split; cbn; lia.
  - right. exists (bx :: by_ :: bz :: q :: c). repeat split; cbn; lia.
Qed.

Lemma final_device E method r w :
  ns (final E method r w) !! "device" = Some (VDevice (chosen_device E)) /\
  ns (final E method r w) !! "drr" = Some (VRenderer (renderer_of E r)) /\
  ns (final E method r w) !! "rotations"
    = Some (VTensor script_rotations (chosen_device E)).
Proof. repeat split; final_ns; reflexivity. Qed.

(** X4. In a completed run the renderer and the two pose tensors live on
    one device, the one bound to [device]. *)
Theorem tensors_on_renderer_device E method rows w w' :
  exec (pipeline E method rows) w = Done w' ->
  exists d r rotations translations,
    ns w' !! "device" = Some (VDevice d) /\
    ns w' !! "drr" = Some (VRenderer r) /\ drr_device r = d /\
    ns w' !! "rotations" = Some (VTensor rotations d) /\
    ns w' !! "translations" = Some (VTensor translations d).
Proof.
  intros H. pose proof (pipeline_cases E method rows w) as Hc.
  rewrite H in Hc. destruct Hc as (r & _ & ->).
  destruct (final_device E method r w) as (Hd & Hr & Hrot).
  exists (chosen_device E), (renderer_of E r), script_rotations,
    (translation_rows r).
  repeat split; try done. apply final_translations.
Qed.

(** X6. What flows where in a completed run: the renderer bound to
    [drr] is built from the loaded volume and spacing with
    [sdr = focal_len / 2], height 200 and pixel size 2; the isosurface is
    extracted from that same volume and spacing at threshold 1150; and the
    texture is the projection of that renderer at the pose bound to
    [pose]. *)
Theorem one_volume_feeds_mesh_and_projection E method rows w w' :
  exec (pipeline E method rows) w = Done w' ->
  exists volume spacing r pose ct img,
    example_ct E = Some (volume, spacing) /\
    ns w' !! "volume" = Some (VVolume volume) /\
    ns w' !! "spacing" = Some (VArray spacing) /\
    ns w' !! "drr" = Some (VRenderer r) /\
    drr_volume r = volume /\ drr_spacing r = spacing /\
    drr_sdr r = focal_len_value / Z2Qc 2 /\
    drr_height r = 200%Z /\ drr_delx r = Z2Qc 2 /\
    ns w' !! "ct" = Some (VMesh ct) /\
    isosurface E method volume spacing (Z2Qc 1150) = Some ct /\
    ns w' !! "pose" = Some (VPose pose) /\
    ns w' !! "texture" = Some (VTexture img) /\
    project E r pose = Some img.
Proof.
  intros H. pose proof (pipeline_cases E method rows w) as Hc.
  rewrite H in Hc. destruct Hc as (r & Hr & ->).
  destruct (final_device E method r w) as (_ & Hdrr & _).
  destruct (final_meshes E method r w) as (Hct & _ & _ & _ & Htex).
  destruct Hr as (Hload & _ & _ & _ & _ & Hiso & _ & _ & Hproj & _).
  exists (r_volume r), (r_spacing r), (renderer_of E r), (pose_of r), (r_ct r),
    (r_image r).
  repeat split; try done; try (final_ns; reflexivity).
Qed.

(** The results of two completed runs that differ in the backend only
    agree on everything but the isosurface and the exported page. *)
Lemma completes_backend E m1 m2 rows r1 r2 :
  completes E m1 rows r1 -> completes E m2 rows r2 ->
  renderer_of E r1 = renderer_of E r2 /\ pose_of r1 = pose_of r2 /\
  r_image r1 = r_image r2 /\ translation_rows r1 = translation_rows r2.
Proof.
  destruct r1 as [v1 s1 [[a1 b1] c1] k1 R1 [[x1 y1] z1] i1 h1].
  destruct r2 as [v2 s2 [[a2 b2] c2] k2 R2 [[x2 y2] z2] i2 h2].
  unfold completes, renderer_of, pose_of, translation_rows, center_list.
  cbn [r_volume r_spacing r_center r_ct r_rotation r_translation r_image r_html
       fst snd].
  intros (H1 & H2 & _ & _ & _ & _ & H3 & H4 & H5 & _).
  intros (G1 & G2 & _ & _ & _ & _ & G3 & G4 & G5 & _).
  unfold ret in *.
  rewrite H1 in G1. injection G1 as <- <-.
  rewrite H2 in G2.
  assert (a1 = a2 /\ b1 = b2 /\ c1 = c2) as (<- & <- & <-).
  { pose proof (f_equal (fun ev : Eval (list Qc) =>
        match value ev with inr [x; y; z] => (x, y, z) | _ => (a1, b1, c1) end)
        G2) as G. cbn in G.
    pose proof (f_equal (fun p : Point => p.1.1) G) as G'.
    pose proof (f_equal (fun p : Point => p.1.2) G) as G''.
    pose proof (f_equal (fun p : Point => p.2) G) as G'''.
    by cbn in G', G'', G'''. }
  rewrite H3 in G3.
  assert (x1 = x2 /\ y1 = y2 /\ z1 = z2) as (<- & <- & <-).
  { pose proof (f_equal (fun l : list (list Qc) =>
        match l with [[x; y; z]] => (x, y, z) | _ => (x1, y1, z1) end)
        G3) as G. cbn in G.
    pose proof (f_equal (fun p : Point => p.1.1) G) as G'.
    pose proof (f_equal (fun p : Point => p.1.2) G) as G''.
    pose proof (f_equal (fun p : Point => p.2) G) as G'''.
    by cbn in G', G'', G'''. }
  rewrite H4 in G4. injection G4 as <-.
  rewrite H5 in G5. injection G5 as <-.
  done.
Qed.

(** X5. The backend reaches the isosurface only: two completed runs in
    one environment that differ in the backend name bind the same renderer,
    pose, camera, detector, texture and principal ray. *)
Theorem backend_moves_isosurface_only E m1 m2 rows wa wb w1 w2 :
  exec (pipeline E m1 rows) wa = Done w1 ->
  exec (pipeline E m2 rows) wb = Done w2 ->
  Forall (fun x => ns w1 !! x = ns w2 !! x /\ is_Some (ns w1 !! x))
    ["drr"; "rotations"; "translations"; "pose"; "camera"; "detector";
     "texture"; "principal_ray"].
Proof.
  intros H1 H2.
  pose proof (pipeline_cases E m1 rows wa) as C1. rewrite H1 in C1.
  pose proof (pipeline_cases E m2 rows wb) as C2. rewrite H2 in C2.
  destruct C1 as (r1 & Hr1 & ->). destruct C2 as (r2 & Hr2 & ->).
  destruct (completes_backend E m1 m2 rows r1 r2 Hr1 Hr2)
    as (Hren & Hpose & Himg & Hrows).
  repeat apply List.Forall_cons; try apply List.Forall_nil;
    (split; [|final_ns; by eexists]);
    final_ns; unfold camera_of, ray_of, detector_of, source_of;
    rewrite ?Hren, ?Hpose, ?Himg, ?Hrows; reflexivity.
Qed.

(** The display statement neither raises nor touches names or files. *)
Lemma exec_display w :
  exists w', exec (cell_display) w = Done w' /\ ns w' = ns w /\ fs w' = fs w.
Proof. eexists. split; [reflexivity|]. by split. Qed.

Lemma pipeline_split E method rows :
  pipeline E method rows
  = take 19 (pipeline E method rows) ++ cell_display.
Proof. reflexivity. Qed.

(** X7. At every point of a run, either the files are exactly as the run
    found them, or the export statement has run: the plotter then holds the
    complete scene and [render.html] is its export. *)
Theorem file_written_from_complete_scene E w i wi :
  states (notebook E) w !! i = Some wi ->
  fs wi = fs w \/
  ((18 < i)%nat /\
   exists ct camera principal_ray detector texture html,
     ns wi !! "plotter"
       = Some (VPlotter [AMesh ct plain; AMesh camera camera_opts;
                         AMesh principal_ray ray_opts;
                         AMesh detector (textured texture);
                         AAxes; ABoundingBox]) /\
     to_html E [AMesh ct plain; AMesh camera camera_opts;
                AMesh principal_ray ray_opts;
                AMesh detector (textured texture);
                AAxes; ABoundingBox] = Some html /\
     fs wi = <["render.html" := html]> (fs w)).
Proof.
  intros Hi. pose proof (lookup_lt_Some _ _ _ Hi) as Hlen.
  apply states_exec in Hi. subst wi.
  destruct (decide (i <= 18)%nat) as [Hle|Hgt].
  { left. apply exec_fs.
    unfold notebook, pipeline, cell_setup, cell_scene, cell_display. cbn [app].
    do 19 (destruct i as [|i]; [reflexivity|]). lia. }
  pose proof (pipeline_cases E "surface_nets" (script_translations E) w) as Hc.
  assert (Hfin : forall w19,
            exec (take 19 (notebook E)) w = Done w19 ->
            exists r, completes E "surface_nets" (script_translations E) r /\
                      ns w19 = ns (final E "surface_nets" r w) /\
                      fs w19 = fs (final E "surface_nets" r w)).
  { intros w19 H19. unfold notebook in *.
    rewrite pipeline_split, exec_app, H19 in Hc.
    destruct (exec_display w19) as (w20 & Hd & Hns & Hfs). rewrite Hd in Hc.
    destruct Hc as (r & Hr & ->). exists r. by rewrite Hns, Hfs. }
  assert (Hscene : forall w0, (exists r,
            completes E "surface_nets" (script_translations E) r /\
            ns w0 = ns (final E "surface_nets" r w) /\
            fs w0 = fs (final E "surface_nets" r w)) ->
            exists ct camera principal_ray detector texture html,
     ns w0 !! "plotter"
       = Some (VPlotter [AMesh ct plain; AMesh camera camera_opts;
                         AMesh principal_ray ray_opts;
                         AMesh detector (textured texture);
                         AAxes; ABoundingBox]) /\
     to_html E [AMesh ct plain; AMesh camera camera_opts;
                AMesh principal_ray ray_opts;
                AMesh detector (textured texture);
                AAxes; ABoundingBox] = Some html /\
     fs w0 = <["render.html" := html]> (fs w)).
  { intros w0 (r & Hr & Hns & Hfs).
    exists (r_ct r), (camera_of E r), (ray_of E r), (detector_of E r),
      (r_image r), (r_html r).
    rewrite Hns, Hfs. split; [apply final_scene|]. split; [apply Hr|done]. }
  destruct (decide (i = 19%nat)) as [->|Hne].
  - destruct (exec (take 19 (notebook E)) w) as [w19|e w19] eqn:H19.
    + right. split; [lia|]. apply Hscene. by apply Hfin.
    + left. unfold notebook in *.
      rewrite pipeline_split, exec_app, H19 in Hc. apply Hc.
  - assert (take i (notebook E) = notebook E) as ->.
    { apply take_ge. unfold notebook. rewrite pipeline_length. lia. }
    unfold notebook in *.
    destruct (exec (pipeline E "surface_nets" (script_translations E)) w)
      as [w'|e w'] eqn:Hrun.
    + right. split; [lia|]. apply Hscene.
      destruct Hc as (r & Hr & ->). by exists r.
    + left. apply Hc.
Qed.

(** X8. The IFrame is shown by the last statement only, and whenever it
    has been shown the file it points to exists. *)
Theorem iframe_shown_after_file_exists E w i wi :
  states (notebook E) w !! i = Some wi ->
  out wi = out w \/
  (i = 20%nat /\
   out wi = out w ++ [VIFrame {| src := "render.html"; height := 500;
                                 width := 749 |}] /\
   is_Some (fs wi !! "render.html")).
Proof.
  intros Hi. pose proof (lookup_lt_Some _ _ _ Hi) as Hlen.
  assert (Hmax : (i <= 20)%nat).
  { pose proof (states_before_end (notebook E) w) as Hl.
    assert (length (notebook E) = 20%nat) as Hn by reflexivity. lia. }
  apply states_exec in Hi. subst wi.
  destruct (decide (i = 20%nat)) as [->|Hne].
  - assert (take 20 (notebook E) = notebook E) as -> by reflexivity.
    pose proof (pipeline_cases E "surface_nets" (script_translations E) w) as Hc.
    unfold notebook.
    destruct (exec (pipeline E "surface_nets" (script_translations E)) w)
      as [w'|e w'].
    + right. split; [done|]. destruct Hc as (r & Hr & ->).
      split; [done|]. cbn [world_of final fs]. rewrite lookup_insert_eq. by eexists.
    + left. apply Hc.
  - left. apply exec_out.
    unfold notebook, pipeline, cell_setup, cell_scene, cell_display. cbn [app].
    do 20 (destruct i as [|i]; [reflexivity|]). lia.
Qed.

(** * The cells with their imports *)

Lemma reading_targets xs s : targets_of (reading xs s) = targets_of s.
Proof. by destruct s. Qed.

(** Looking up names that are bound makes no call and raises nothing. *)
Lemma reads_bound {A} xs (m : gmap string PyVal) (r : Eval A) :
  Forall (fun x => is_Some (m !! x)) xs ->
  calls (foldr (fun x k => name x m ;;; k) r xs) = calls r /\
  value (foldr (fun x k => name x m ;;; k) r xs) = value r.
Proof.
  induction xs as [|x xs IH]; intros H; cbn [foldr]; [done|].
  apply Forall_cons in H as [[v Hv] Hxs].
  destruct (IH Hxs) as [Hc Hr].
  unfold name at 1 3. rewrite Hv. cbn. by rewrite Hc, Hr.
Qed.

Lemma reading_bound xs s w :
  Forall (fun x => is_Some (ns w !! x)) xs ->
  exec_stmt (reading xs s) w = exec_stmt s w.
Proof.
  intros H.
  destruct s as [ts rhs|obj method|file rhs|rhs]; cbn [reading exec_stmt].
  - destruct (reads_bound xs (ns w) (rhs (ns w)) H) as [-> ->]. reflexivity.
  - destruct (ns w !! obj) as [self|]; [|done].
    destruct (reads_bound xs (ns w) (method (ns w) self) H) as [-> ->].
    reflexivity.
  - destruct (reads_bound xs (ns w) (rhs (ns w)) H) as [-> ->]. reflexivity.
  - destruct (reads_bound xs (ns w) (rhs (ns w)) H) as [-> ->]. reflexivity.
Qed.

Lemma bind_names_bound xs : forall vs (m : gmap string PyVal) x,
  is_Some (m !! x) -> is_Some (bind_names xs vs m !! x).
Proof.
  induction xs as [|y xs IH]; intros [|v vs] m x Hx; cbn; try done.
  apply IH. rewrite lookup_insert_is_Some. destruct (decide (y = x)); auto.
Qed.

(** No statement unbinds a name. *)
Lemma exec_stmt_bound s w x :
  is_Some (ns w !! x) -> is_Some (ns (world_of (exec_stmt s w)) !! x).
Proof.
  intros Hx.
  destruct s as [ts rhs|obj method|file rhs|rhs]; cbn.
  - destruct (value (rhs (ns w))) as [e|v]; [done|].
    destruct (unpack ts v) as [e|vs]; [done|].
    cbn. by apply bind_names_bound.
  - destruct (ns w !! obj) as [self|]; [|done].
    destruct (value (method (ns w) self)); [done|].
    cbn. rewrite lookup_insert_is_Some. destruct (decide (obj = x)); auto.
  - by destruct (value (rhs (ns w))).
  - by destruct (value (rhs (ns w))).
Qed.

(** Statements that look up bound names only run as the statements
    themselves. *)
Lemma exec_reading l : forall reads w,
  length reads = length l ->
  Forall (Forall (fun x => is_Some (ns w !! x))) reads ->
  exec (zip_with reading reads l) w = exec l w.
Proof.
  induction l as [|s l IH]; intros [|xs reads] w Hlen Hall; try done.
  cbn [zip_with exec].
  apply Forall_cons in Hall as [Hxs Hall].
  rewrite (reading_bound xs s w Hxs).
  pose proof (fun x => exec_stmt_bound s w x) as Hb.
  destruct (exec_stmt s w) as [w1|e w1]; [|done].
  apply IH; [by injection Hlen|].
  eapply Forall_impl; [exact Hall|]. intros ys Hys.
  eapply Forall_impl; [exact Hys|]. intros y Hy. by apply Hb.
Qed.

(** A run of all the cells: an import fails, or the statements after the
    imports run in the kernel the first six import statements leave, and
    the page is shown once [IFrame] is imported. *)
Lemma cells_cases E w :
  match exec (code_cells E) w with
  | Done w' =>
      Forall (fun x => importable E x = true) library_names /\
      exists w1,
        exec (take 19 (notebook E)) (with_imports w) = Done w1 /\
        w' = display the_iframe
               (log [EvIFrame "render.html"]
                  (set_ns (insert "IFrame" (VLibrary "IPython.display.IFrame")) w1))
  | Raised e w' =>
      (exists x, x ∈ library_names /\ importable E x = false /\
                 e = ImportError x) \/
      (Forall (fun x => importable E x = true) (take 7 library_names) /\
       exec (take 19 (notebook E)) (with_imports w) = Raised e w')
  end.
Proof.
  destruct w as [m f t o].
  unfold code_cells, cell_imports, import_module, import_from, with_imports,
    imported, library_names.
  cbn [app]. cbv [String.append].
  do 7 (ev;
        match goal with |- context [importable E ?x] =>
          destruct (importable E x) eqn:?
        end;
        [|ev; left; eexists; split; [|split; [eassumption|reflexivity]];
          apply (bool_decide_unpack _); by vm_compute]).
  ev. cbv [log set_ns ns fs trace out]. rewrite !(app_nil_r (A:=Event)).
  rewrite exec_app.
  rewrite exec_reading;
    [|reflexivity
     |unfold library_reads; repeat constructor; cbn [ns]; look; by eexists].
  change (take 19 (notebook E))
    with (cell_setup E ++ cell_scene E "surface_nets" (script_translations E)).
  destruct (exec (cell_setup E ++ cell_scene E "surface_nets" (script_translations E)) _)
    as [w1|e1 w1] eqn:Hmain.
  - destruct w1 as [m1 f1 t1 o1].
    cbn [app]. ev.
    destruct (importable E "IPython.display.IFrame") eqn:Hif.
    + ev. cbv [log set_ns ns fs trace out]. rewrite !(app_nil_r (A:=Event)).
      rewrite exec_reading;
        [|reflexivity|repeat constructor; cbn [ns]; look; by eexists].
      cbn. split; [by repeat constructor|]. by eexists.
    + ev. left. exists "IPython.display.IFrame".
      split; [apply (bool_decide_unpack _); by vm_compute|].
      split; [done|reflexivity].
  - right. split; [by repeat constructor|]. reflexivity.
Qed.

(** X1. A run of the notebook's cells, imports included, never raises a
    [NameError], whatever the kernel state and the behaviour of the
    libraries: each of the twenty-five names the statements look up - the
    seventeen variables and the eight imported names - is bound by an earlier
    statement of the cells themselves. *)
Theorem no_name_error E w e w' :
  exec (code_cells E) w = Raised e w' -> forall x, e <> NameError x.
Proof.
  intros H. pose proof (cells_cases E w) as Hc. rewrite H in Hc.
  destruct Hc as [(y & _ & _ & ->)|[_ Hmain]]; [intros x; discriminate|].
  apply (pipeline_no_name_error E "surface_nets" (script_translations E)
           (with_imports w) e w').
  rewrite pipeline_split, exec_app. unfold notebook in Hmain. by rewrite Hmain.
Qed.



(** X12. With every import succeeding, the cells run as the statements
    after the imports do in the kernel the first six import statements
    leave: the same calls, files and outputs, the same exception if any, and
    the same names but for [IFrame], bound before the page is shown. *)
Theorem cells_run_as_notebook E w :
  Forall (fun x => importable E x = true) library_names ->
  match run E (with_imports w), exec (code_cells E) w with
  | Done a, Done b =>
      ns b = <["IFrame" := VLibrary "IPython.display.IFrame"]> (ns a) /\
      fs b = fs a /\ trace b = trace a /\ out b = out a
  | Raised e a, Raised e' b => e' = e /\ b = a
  | _, _ => False
  end.
Proof.
  intros Himp. pose proof (cells_cases E w) as Hc.
  unfold run, notebook in *. rewrite pipeline_split, exec_app.
  destruct (exec (code_cells E) w) as [b|e' b].
  - destruct Hc as (_ & w1 & -> & ->). by cbn.
  - destruct Hc as [(x & Hx & Hf & _)|[_ ->]]; [|done].
    rewrite Forall_forall in Himp. rewrite (Himp x Hx) in Hf. discriminate Hf.
Qed.


(** * Running again *)

Lemma foldl_write_union W : forall m : gmap string PyVal,
  foldl write m W = foldl write ∅ W ∪ m.
Proof.
  induction W as [|b W IH] using rev_ind; intros m; cbn.
  - by rewrite (left_id_L ∅ (∪)).
  - rewrite !foldl_app. cbn. unfold write at 1 3.
    rewrite IH. by rewrite insert_union_l.
Qed.



(** Every name of the notebook is among the writes of a completed run. *)
Lemma writes_cover E r x :
  x ∈ script_names -> is_Some (foldl write ∅ (writes E r) !! x).
Proof.
  intros Hx. unfold script_names in Hx.
  repeat (apply elem_of_cons in Hx as [->|Hx];
          [unfold writes; cbn [foldl app map seq]; unfold write;
           cbn [fst snd]; look; by eexists|]).
  by apply elem_of_nil in Hx.
Qed.



(** X11. No hidden state: what a completed run binds to its seventeen
    names does not depend on the kernel it started in.  Two completed runs
    in one environment, from any two kernel states, agree on every one of
    them. *)
Theorem bindings_ignore_kernel_state E method rows wa wb a b x :
  exec (pipeline E method rows) wa = Done a ->
  exec (pipeline E method rows) wb = Done b ->
  x ∈ script_names ->
  ns a !! x = ns b !! x /\ is_Some (ns a !! x).
Proof.
  intros Ha Hb Hx.
  pose proof (pipeline_cases E method rows wa) as C1. rewrite Ha in C1.
  pose proof (pipeline_cases E method rows wb) as C2. rewrite Hb in C2.
  destruct C1 as (r1 & Hr1 & ->). destruct C2 as (r2 & Hr2 & ->).
  rewrite (completes_unique _ _ _ _ _ Hr2 Hr1).
  cbn [final ns].
  rewrite (foldl_write_union _ (ns wa)), (foldl_write_union _ (ns wb)).
  destruct (writes_cover E r1 x Hx) as [v Hv].
  rewrite !(lookup_union_Some_l _ _ _ _ Hv). split; [done|by eexists].
Qed.

(** * The further properties at work on the concrete environments *)

Lemma no_name_error_witness :
  exec (code_cells demo_no_volume) used_kernel
  = Raised (LibraryError EvLoadCT)
      (world_of (exec (code_cells demo_no_volume) used_kernel)) /\
  forall x, LibraryError EvLoadCT <> NameError x.
Proof.
  assert (H : exec (code_cells demo_no_volume) used_kernel
              = Raised (LibraryError EvLoadCT)
                  (world_of (exec (code_cells demo_no_volume) used_kernel))).
  { vm_compute. reflexivity. }
  split; [exact H|].
  exact (no_name_error _ _ _ _ H).
Defined.

Lemma isocenter_needs_three_axes_witness :
  example_ct demo_flat = Some (demo_volume [2; 4]%Z, [Z2Qc 1; Z2Qc 1]) /\
  exists e w',
    exec (pipeline demo_flat "surface_nets" (script_translations demo_flat)) used_kernel
    = Raised e w' /\
    ((e = RuntimeError (size_mismatch 2 2) /\
      2%nat <> 2%nat /\ 2%nat <> 1%nat /\ 2%nat <> 1%nat) \/
     (exists c, value (isocenter demo_flat (demo_volume [2; 4]%Z) [Z2Qc 1; Z2Qc 1])
                = inr c /\
                (length c < 3)%nat /\
                e = ValueError (not_enough_values 3 (length c))) \/
     (exists c, value (isocenter demo_flat (demo_volume [2; 4]%Z) [Z2Qc 1; Z2Qc 1])
                = inr c /\
                (3 < length c)%nat /\
                e = ValueError (too_many_values 3))) /\
    trace w' = trace used_kernel ++ [EvDevice (chosen_device demo_flat); EvLoadCT] /\
    ns w' !! "volume" = Some (VVolume (demo_volume [2; 4]%Z)) /\
    ns w' !! "spacing" = Some (VArray [Z2Qc 1; Z2Qc 1]) /\
    ns w' !! "drr" = ns used_kernel !! "drr" /\
    fs w' = fs used_kernel.
Proof.
  split; [reflexivity|].
  apply (isocenter_needs_three_axes demo_flat "surface_nets" (script_translations demo_flat)
           used_kernel (demo_volume [2; 4]%Z) [Z2Qc 1; Z2Qc 1]).
  - reflexivity.
  - intros bx by_ bz H.
    apply (f_equal (fun s : Exn + list Qc =>
             match s with inr l => length l | inl _ => 0%nat end)) in H.
    vm_compute in H. discriminate H.
Defined.

Lemma tensors_on_renderer_device_witness :
  let w' := world_of (run demo fresh) in
  run demo fresh = Done w' /\
  exists d r rotations translations,
    ns w' !! "device" = Some (VDevice d) /\
    ns w' !! "drr" = Some (VRenderer r) /\ drr_device r = d /\
    ns w' !! "rotations" = Some (VTensor rotations d) /\
    ns w' !! "translations" = Some (VTensor translations d).
Proof.
  intros w'.
  assert (H : run demo fresh = Done w') by (vm_compute; reflexivity).
  split; [exact H|].
  exact (tensors_on_renderer_device demo "surface_nets" (script_translations demo)
           fresh w' H).
Defined.

Lemma backend_moves_isosurface_only_witness :
  let w1 := world_of (exec (pipeline demo "surface_nets" (script_translations demo))
                        fresh) in
  let w2 := world_of (exec (pipeline demo "marching_cubes" (script_translations demo))
                        used_kernel) in
  exec (pipeline demo "surface_nets" (script_translations demo)) fresh = Done w1 /\
  exec (pipeline demo "marching_cubes" (script_translations demo)) used_kernel = Done w2 /\
  Forall (fun x => ns w1 !! x = ns w2 !! x /\ is_Some (ns w1 !! x))
    ["drr"; "rotations"; "translations"; "pose"; "camera"; "detector";
     "texture"; "principal_ray"].
Proof.
  intros w1 w2.
  assert (H1 : exec (pipeline demo "surface_nets" (script_translations demo)) fresh
               = Done w1) by (vm_compute; reflexivity).
  assert (H2 : exec (pipeline demo "marching_cubes" (script_translations demo))
                 used_kernel = Done w2) by (vm_compute; reflexivity).
  split; [exact H1|]. split; [exact H2|].
  exact (backend_moves_isosurface_only _ _ _ _ _ _ _ _ H1 H2).
Defined.

Lemma one_volume_feeds_mesh_and_projection_witness :
  let w' := world_of (run demo used_kernel) in
  run demo used_kernel = Done w' /\
  exists volume spacing r pose ct img,
    example_ct demo = Some (volume, spacing) /\
    ns w' !! "volume" = Some (VVolume volume) /\
    ns w' !! "spacing" = Some (VArray spacing) /\
    ns w' !! "drr" = Some (VRenderer r) /\
    drr_volume r = volume /\ drr_spacing r = spacing /\
    drr_sdr r = focal_len_value / Z2Qc 2 /\
    drr_height r = 200%Z /\ drr_delx r = Z2Qc 2 /\
    ns w' !! "ct" = Some (VMesh ct) /\
    isosurface demo "surface_nets" volume spacing (Z2Qc 1150) = Some ct /\
    ns w' !! "pose" = Some (VPose pose) /\
    ns w' !! "texture" = Some (VTexture img) /\
    project demo r pose = Some img.
Proof.
  intros w'.
  assert (H : run demo used_kernel = Done w') by (vm_compute; reflexivity).
  split; [exact H|].
  exact (one_volume_feeds_mesh_and_projection demo "surface_nets"
           (script_translations demo) used_kernel w' H).
Defined.

Lemma file_written_from_complete_scene_witness :
  exists wi,
    states (notebook demo) used_kernel !! 19%nat = Some wi /\
    (fs wi = fs used_kernel \/
     ((18 < 19)%nat /\
      exists ct camera principal_ray detector texture html,
        ns wi !! "plotter"
          = Some (VPlotter [AMesh ct plain; AMesh camera camera_opts;
                            AMesh principal_ray ray_opts;
                            AMesh detector (textured texture);
                            AAxes; ABoundingBox]) /\
        to_html demo [AMesh ct plain; AMesh camera camera_opts;
                      AMesh principal_ray ray_opts;
                      AMesh detector (textured texture);
                      AAxes; ABoundingBox] = Some html /\
        fs wi = <["render.html" := html]> (fs used_kernel))).
Proof.
  destruct (states (notebook demo) used_kernel !! 19%nat) as [wi|] eqn:H;
    [|vm_compute in H; discriminate H].
  exists wi. split; [reflexivity|].
  exact (file_written_from_complete_scene demo used_kernel 19 wi H).
Defined.

Lemma iframe_shown_after_file_exists_witness :
  exists wi,
    states (notebook demo) fresh !! 20%nat = Some wi /\
    (out wi = out fresh \/
     (20%nat = 20%nat /\
      out wi = out fresh ++ [VIFrame {| src := "render.html"; height := 500;
                                        width := 749 |}] /\
      is_Some (fs wi !! "render.html"))).
Proof.
  destruct (states (notebook demo) fresh !! 20%nat) as [wi|] eqn:H;
    [|vm_compute in H; discriminate H].
  exists wi. split; [reflexivity|].
  exact (iframe_shown_after_file_exists demo fresh 20 wi H).
Defined.


Lemma cells_run_as_notebook_witness :
  Forall (fun x => importable demo x = true) library_names /\
  match run demo (with_imports used_kernel), exec (code_cells demo) used_kernel with
  | Done a, Done b =>
      ns b = <["IFrame" := VLibrary "IPython.display.IFrame"]> (ns a) /\
      fs b = fs a /\ trace b = trace a /\ out b = out a
  | Raised e a, Raised e' b => e' = e /\ b = a
  | _, _ => False
  end.
Proof.
  assert (H : Forall (fun x => importable demo x = true) library_names)
    by (repeat constructor).
  split; [exact H|].
  exact (cells_run_as_notebook demo used_kernel H).
Defined.


Lemma bindings_ignore_kernel_state_witness :
  let a := world_of (exec (pipeline demo "surface_nets" (script_translations demo))
                       fresh) in
  let b := world_of (exec (pipeline demo "surface_nets" (script_translations demo))
                       used_kernel) in
  exec (pipeline demo "surface_nets" (script_translations demo)) fresh = Done a /\
  exec (pipeline demo "surface_nets" (script_translations demo)) used_kernel = Done b /\
  "plotter" ∈ script_names /\
  ns a !! "plotter" = ns b !! "plotter" /\ is_Some (ns a !! "plotter").
Proof.
  intros a b.
  assert (Ha : exec (pipeline demo "surface_nets" (script_translations demo)) fresh
               = Done a) by (vm_compute; reflexivity).
  assert (Hb : exec (pipeline demo "surface_nets" (script_translations demo))
                 used_kernel = Done b) by (vm_compute; reflexivity).
  assert (Hx : "plotter" ∈ script_names).
  { apply (bool_decide_unpack _). by vm_compute. }
  split; [exact Ha|]. split; [exact Hb|]. split; [exact Hx|].
  exact (bindings_ignore_kernel_state demo "surface_nets" (script_translations demo)
           fresh used_kernel a b "plotter" Ha Hb Hx).
Defined.
